(** * DevOS: process, memory and file bookkeeping

    A shallow embedding of [code.py].  The program is a handful of Python
    classes whose methods read and write instance attributes, call one
    another through attribute lookup, print to standard output and open
    files.  Two facts about the program depend on how Python resolves
    names, so the embedding keeps that machinery explicit:

    - objects live in a heap, each with its class and its instance
      dictionary; [getattr] looks in the instance dictionary first and in
      the class second, where a function found on the class is bound to the
      instance;
    - a global name is looked up in the module namespace, and a name bound
      nowhere raises [NameError].

    Every method of the source is a function in the state-and-exception
    monad [M]; the statements of a body appear in source order. *)

From Stdlib Require Import ZArith String Ascii List.
From stdpp Require Import gmap strings pretty.

Local Open Scope string_scope.
Local Open Scope Z_scope.

(** ** Values and objects *)

Abbreviation loc := positive.

(** The classes of the program.  [C_ProcessManager] is the class that
    [DevOS.__init__] names; the source file does not define it (see
    [module_globals] and the module [ProcessManager] below). *)
Inductive class :=
| C_Process
| C_MemoryManager
| C_FileSystem
| C_DevOS
| C_ProcessManager.

(** The [def]s of the program, one tag per function object. *)
Inductive func :=
| def_Process_init
| def_Process_terminate
| def_MemoryManager_init
| def_MemoryManager_allocate_memory
| def_MemoryManager_free_memory
| def_FileSystem_init
| def_FileSystem_create_file
| def_FileSystem_read_file
| def_DevOS_init
| def_DevOS_run_process
| def_DevOS_terminate_process
| def_ProcessManager_init
| def_ProcessManager_add_process
| def_ProcessManager_remove_process
| def_ProcessManager_lookup.

Inductive value :=
| VNone
| VBool (b : bool)
| VInt (z : Z)
| VStr (s : string)
| VRef (l : loc)                   (* an instance of one of the classes *)
| VDict (d : gmap Z loc)           (* a dict from int keys to instances *)
| VClass (c : class)
| VFunc (f : func)                 (* a function read off its class *)
| VMethod (f : func) (self : loc)  (* a function bound to an instance *)
| VModule (name : string).

Record object := Object {
  obj_class : class;
  obj_dict : gmap string value
}.

(** One printed line: the literal text of an f-string and its replacement
    fields.  A field that holds a str, an int, a bool or None is rendered as
    Python renders it; the default repr of any other object contains its
    address, and such a field is kept as the value itself. *)
Inductive piece :=
| Lit (s : string)
| Obj (v : value).

(** ** Exceptions *)

Inductive exn :=
| NameError (name : string)
| AttributeError (type_name attr : string)
| TypeError (msg : string)
| ValueError (msg : string)
| RecursionError
| FileNotFoundError (path : string)
| IsADirectoryError (path : string)
| NotADirectoryError (path : string)
| PermissionError (path : string)
| OSError (errno : Z) (path : string)
| DuplicateProcess (pid : Z)
| UnknownProcess (pid : Z)
| SystemError (msg : string).

Inductive outcome (A : Type) :=
| Ret (a : A)
| Raise (e : exn).
Arguments Ret {A} a.
Arguments Raise {A} e.

(** ** The file system under the program

    The program opens files by path and never makes a directory, a link or a
    device.  What a path string leads to is therefore a fact of the world
    the program runs in: the world says it, path by path, and the program
    only changes the text of regular files. *)

Inductive mode := Writing | Reading.

(** [Place k refuse_write refuse_read]: the place [k] of a regular file,
    which exists when [files] has an entry for [k]; every path string that
    leads to the same file has the same [k].  Opening it for writing, or for
    reading, raises the given exception when there is one (permissions, a
    read-only file system).

    [Unopenable why]: [open] raises, for a directory, a missing parent, a
    parent that is a regular file, a name too long; which exception may
    depend on the mode and on the files that exist.

    [Device accepts yields]: anything else that opens, a device or a pipe.
    Writing a text to it succeeds or raises and stores nothing; reading
    gives what it gives. *)
Inductive resolution :=
| Place (k : string) (refuse_write refuse_read : option exn)
| Unopenable (why : mode -> gmap string string -> exn)
| Device (accepts : string -> option exn) (yields : outcome string).

Definition sep : ascii := "/"%char.

Fixpoint ends_with_sep (s : string) : bool :=
  match s with
  | EmptyString => false
  | String c EmptyString => Ascii.eqb c sep
  | String _ rest => ends_with_sep rest
  end.

(** [s] cut at every separator. *)
Fixpoint split_at_sep (s current : string) : list string :=
  match s with
  | EmptyString => [current]
  | String c rest =>
      if Ascii.eqb c sep then current :: split_at_sep rest EmptyString
      else split_at_sep rest (current ++ String c EmptyString)
  end.

(** The length of a name in bytes, characters above 127 taking two. *)
Fixpoint byte_length (s : string) : Z :=
  match s with
  | EmptyString => 0
  | String c rest =>
      (if (Ascii.N_of_ascii c <? 128)%N then 1 else 2) + byte_length rest
  end.

Definition stays_here (c : string) : bool :=
  String.eqb c EmptyString || String.eqb c ".".

Fixpoint drop_leading_dotdot (names : list string) : list string :=
  match names with
  | name :: rest =>
      if String.eqb name ".." then drop_leading_dotdot rest else names
  | [] => []
  end.

(** A path that needs [name], an entry of the root, to be a directory. *)
Definition through (p name : string) (slash : bool) : resolution :=
  Unopenable (fun m existing =>
    match existing !! String sep name with
    | Some _ => NotADirectoryError p
    | None =>
        match m with
        | Writing => if slash then IsADirectoryError p else FileNotFoundError p
        | Reading => FileNotFoundError p
        end
    end).

(** The layout of a file system that has one directory, the root, which is
    also the working directory, and in which everything is permitted.  A
    path that names an entry of the root leads to the place of a regular
    file, whether it is written [name], [/name] or [./name]; a path that
    names the root is a directory; a path that goes below an entry fails.
    A path of more than 4095 bytes, or an entry of the root with a name of
    more than 255, is refused as too long (errno 36). *)
Definition root_only (p : string) : resolution :=
  let raw := split_at_sep p EmptyString in
  let names :=
    drop_leading_dotdot (List.filter (fun c => negb (stays_here c)) raw) in
  if 4095 <? byte_length p then Unopenable (fun _ _ => OSError 36 p)
  else
    match names with
    | [] => Unopenable (fun _ _ => IsADirectoryError p)
    | name :: below =>
        if 255 <? byte_length name then Unopenable (fun _ _ => OSError 36 p)
        else
          match below with
          | [] =>
              if stays_here (List.last raw EmptyString)
              then through p name (ends_with_sep p)
              else Place (String sep name) None None
          | _ :: _ => through p name false
          end
    end.

(** The state a run of the program can observe or change: the heap of
    instances, the lines printed so far (oldest first), and the file store
    ([files] maps the place of a regular file to its stored text, [dirs] is
    a set of paths known to name a directory, [paths] says what every other
    path leads to). *)
Record world := MkWorld {
  heap : gmap loc object;
  stdout : list (list piece);
  files : gmap string string;
  dirs : gset string;
  paths : string -> resolution
}.

(** A world over the file system [root_only]. *)
Definition World (h : gmap loc object) (out : list (list piece))
    (f : gmap string string) (d : gset string) : world :=
  MkWorld h out f d root_only.

(** ** The monad *)

(** A statement runs in a world and leaves a world behind, also when it
    raises: what was written before the exception stays written. *)
Definition M (A : Type) : Type := world -> outcome A * world.

Definition ret {A} (a : A) : M A := fun w => (Ret a, w).

Definition raise {A} (e : exn) : M A := fun w => (Raise e, w).

Definition bind {A B} (c : M A) (k : A -> M B) : M B :=
  fun w =>
    match c w with
    | (Ret a, w') => k a w'
    | (Raise e, w') => (Raise e, w')
    end.

Declare Scope py_scope.
Delimit Scope py_scope with py.
Notation "x <- c ;; k" := (bind c (fun x => k))
  (at level 100, c at next level, right associativity) : py_scope.
Notation "c ;;; k" := (bind c (fun _ => k))
  (at level 100, right associativity) : py_scope.
Local Open Scope py_scope.

Definition with_heap (w : world) (h : gmap loc object) : world :=
  MkWorld h (stdout w) (files w) (dirs w) (paths w).

Definition with_files (w : world) (f : gmap string string) : world :=
  MkWorld (heap w) (stdout w) f (dirs w) (paths w).

Definition with_line (w : world) (line : list piece) : world :=
  MkWorld (heap w) (stdout w ++ [line])%list (files w) (dirs w) (paths w).

Definition get_heap : M (gmap loc object) := fun w => (Ret (heap w), w).

Definition set_heap (h : gmap loc object) : M unit :=
  fun w => (Ret tt, with_heap w h).

(** ** Built-in operations *)

Definition class_name (c : class) : string :=
  match c with
  | C_Process => "Process"
  | C_MemoryManager => "MemoryManager"
  | C_FileSystem => "FileSystem"
  | C_DevOS => "DevOS"
  | C_ProcessManager => "ProcessManager"
  end.

Definition deref (l : loc) : M object :=
  h <- get_heap ;;
  match h !! l with
  | Some o => ret o
  | None => raise (SystemError "reference to no object")
  end.

(** [type(v).__name__] *)
Definition type_name (v : value) : M string :=
  match v with
  | VNone => ret "NoneType"
  | VBool _ => ret "bool"
  | VInt _ => ret "int"
  | VStr _ => ret "str"
  | VRef l => o <- deref l ;; ret (class_name (obj_class o))
  | VDict _ => ret "dict"
  | VClass _ => ret "type"
  | VFunc _ => ret "function"
  | VMethod _ _ => ret "method"
  | VModule _ => ret "module"
  end.

(** The functions each class body defines. *)
Definition class_dict (c : class) (attr : string) : option func :=
  match c with
  | C_Process =>
      if decide (attr = "__init__") then Some def_Process_init
      else if decide (attr = "terminate") then Some def_Process_terminate
      else None
  | C_MemoryManager =>
      if decide (attr = "__init__") then Some def_MemoryManager_init
      else if decide (attr = "allocate_memory") then Some def_MemoryManager_allocate_memory
      else if decide (attr = "free_memory") then Some def_MemoryManager_free_memory
      else None
  | C_FileSystem =>
      if decide (attr = "__init__") then Some def_FileSystem_init
      else if decide (attr = "create_file") then Some def_FileSystem_create_file
      else if decide (attr = "read_file") then Some def_FileSystem_read_file
      else None
  | C_DevOS =>
      if decide (attr = "__init__") then Some def_DevOS_init
      else if decide (attr = "run_process") then Some def_DevOS_run_process
      else if decide (attr = "terminate_process") then Some def_DevOS_terminate_process
      else None
  | C_ProcessManager =>
      if decide (attr = "__init__") then Some def_ProcessManager_init
      else if decide (attr = "add_process") then Some def_ProcessManager_add_process
      else if decide (attr = "remove_process") then Some def_ProcessManager_remove_process
      else if decide (attr = "lookup") then Some def_ProcessManager_lookup
      else None
  end.

(** [v.attr]: for an instance, the instance dictionary is consulted first; a
    function is a non-data descriptor, so it is found on the class, and
    bound, only when the instance dictionary has no entry of that name.
    The built-in types carry none of the attribute names the program uses. *)
Definition getattr (v : value) (attr : string) : M value :=
  match v with
  | VRef l =>
      o <- deref l ;;
      match obj_dict o !! attr with
      | Some x => ret x
      | None =>
          match class_dict (obj_class o) attr with
          | Some f => ret (VMethod f l)
          | None => raise (AttributeError (class_name (obj_class o)) attr)
          end
      end
  | VClass c =>
      match class_dict c attr with
      | Some f => ret (VFunc f)
      | None => raise (AttributeError (class_name c) attr)
      end
  | _ => t <- type_name v ;; raise (AttributeError t attr)
  end.

(** [v.attr = x].  The program assigns to attributes of [self] only, and
    only instances take attributes here. *)
Definition setattr (v : value) (attr : string) (x : value) : M unit :=
  match v with
  | VRef l =>
      o <- deref l ;;
      h <- get_heap ;;
      set_heap (<[l := Object (obj_class o) (<[attr := x]> (obj_dict o))]> h)
  | _ => t <- type_name v ;; raise (AttributeError t attr)
  end.

(** bool is a subclass of int: True is 1 and False is 0 in arithmetic. *)
Definition as_int (v : value) : option Z :=
  match v with
  | VInt z => Some z
  | VBool b => Some (if b then 1 else 0)
  | _ => None
  end.

Definition binop_error (op : string) (a b : value) : M value :=
  ta <- type_name a ;;
  tb <- type_name b ;;
  raise (TypeError ("unsupported operand type(s) for " ++ op ++ ": '" ++ ta ++ "' and '" ++ tb ++ "'")).

(** [a <= b] *)
Definition py_le (a b : value) : M value :=
  match as_int a, as_int b with
  | Some x, Some y => ret (VBool (x <=? y))
  | _, _ =>
      match a, b with
      | VStr s, VStr t => ret (VBool (String.leb s t))
      | _, _ =>
          ta <- type_name a ;;
          tb <- type_name b ;;
          raise (TypeError ("'<=' not supported between instances of '" ++ ta ++ "' and '" ++ tb ++ "'"))
      end
  end.

(** [a - b], as the augmented assignment [-=] computes it *)
Definition py_isub (a b : value) : M value :=
  match as_int a, as_int b with
  | Some x, Some y => ret (VInt (x - y))
  | _, _ => binop_error "-=" a b
  end.

(** [a + b], as the augmented assignment [+=] computes it *)
Definition py_iadd (a b : value) : M value :=
  match as_int a, as_int b with
  | Some x, Some y => ret (VInt (x + y))
  | _, _ =>
      match a, b with
      | VStr s, VStr t => ret (VStr (s ++ t))
      | _, _ => binop_error "+=" a b
      end
  end.

(** Truth value of the condition of an [if]. *)
Definition truthy (v : value) : bool :=
  match v with
  | VNone => false
  | VBool b => b
  | VInt z => negb (z =? 0)
  | VStr s => negb (String.eqb s EmptyString)
  | VDict d => negb (bool_decide (d = ∅))
  | _ => true
  end.

(** A replacement field [{v}] of an f-string. *)
Definition field (v : value) : piece :=
  match v with
  | VStr s => Lit s
  | VInt z => Lit (pretty z)
  | VBool true => Lit "True"
  | VBool false => Lit "False"
  | VNone => Lit "None"
  | _ => Obj v
  end.

(** [print(f"...")] *)
Definition print (line : list piece) : M unit :=
  fun w => (Ret tt, with_line w line).

(** A fresh instance of class [c], with an empty instance dictionary. *)
Definition new_object (c : class) : M loc :=
  h <- get_heap ;;
  let l := fresh (dom h) in
  set_heap (<[l := Object c ∅]> h) ;;;
  ret l.

(** A call with the wrong number of arguments. *)
Definition arity_error {A} (name : string) : M A :=
  raise (TypeError (name ++ "() called with the wrong number of arguments")).

(** ** The file store

    [os.path.join], and [open] in text mode with the default newline
    handling, on a POSIX system.  A path with a null character is refused
    before the file system is asked, the empty path names nothing, and what
    any other path leads to is read off the world.  Text is a string of
    characters, written and read back through the same encoding, UTF-8.
    Failures of the device in the middle of a write, and other programs that
    write the same files, are outside the model. *)

Definition CR : ascii := "013"%char.
Definition LF : ascii := "010"%char.

Fixpoint has_NUL (s : string) : bool :=
  match s with
  | EmptyString => false
  | String c rest => Ascii.eqb c "000"%char || has_NUL rest
  end.

(** [posixpath.join(a, b)]: an absolute [b] replaces [a]; otherwise [b] is
    appended, after a separator unless [a] is empty or already ends in one. *)
Definition posix_join (a b : string) : string :=
  if String.prefix (String sep EmptyString) b then b
  else if String.eqb a EmptyString || ends_with_sep a then a ++ b
  else a ++ String sep b.

Definition os_path_join (a b : value) : M value :=
  match a, b with
  | VStr a, VStr b => ret (VStr (posix_join a b))
  | _, _ => raise (TypeError "expected str, bytes or os.PathLike object")
  end.

(** Reading in text mode translates each of the line endings CR LF and CR
    to LF (universal newlines). *)
Fixpoint universal_newlines (s : string) : string :=
  match s with
  | EmptyString => EmptyString
  | String c rest =>
      if Ascii.eqb c CR then
        match rest with
        | String c' rest' =>
            if Ascii.eqb c' LF then String LF (universal_newlines rest')
            else String LF (universal_newlines rest)
        | EmptyString => String LF EmptyString
        end
      else String c (universal_newlines rest)
  end.

(** A path that can be opened at all: it has no null character, it is not
    empty and it is not known to be a directory. *)
Definition openable (w : world) (p : string) : Prop :=
  has_NUL p = false /\ String.eqb p EmptyString = false /\ p ∉ dirs w.

(** [file.write(content)] when [content] is not a str. *)
Definition not_a_str (content : value) : M unit :=
  t <- type_name content ;;
  raise (TypeError ("write() argument must be str, not " ++ t)).

(** [with open(path, "w") as file: file.write(content)].  Opening a regular
    file creates it or truncates it; writing leaves LF as it is, the line
    separator of the platform. *)
Definition write_text (path content : value) : M unit :=
  match path with
  | VStr p =>
      if has_NUL p then raise (ValueError "embedded null byte")
      else if String.eqb p EmptyString then raise (FileNotFoundError p)
      else
        fun w =>
          if decide (p ∈ dirs w) then (Raise (IsADirectoryError p), w)
          else
            match paths w p with
            | Place k refuse_write _ =>
                match refuse_write with
                | Some e => (Raise e, w)
                | None =>
                    match content with
                    | VStr s => (Ret tt, with_files w (<[k := s]> (files w)))
                    | _ =>
                        not_a_str content
                          (with_files w (<[k := EmptyString]> (files w)))
                    end
                end
            | Unopenable why => (Raise (why Writing (files w)), w)
            | Device accepts _ =>
                match content with
                | VStr s =>
                    match accepts s with
                    | Some e => (Raise e, w)
                    | None => (Ret tt, w)
                    end
                | _ => not_a_str content w
                end
            end
  | _ => raise (TypeError "expected str, bytes or os.PathLike object")
  end.

(** [with open(path, "r") as file: return file.read()] *)
Definition read_text (path : value) : M value :=
  match path with
  | VStr p =>
      if has_NUL p then raise (ValueError "embedded null byte")
      else if String.eqb p EmptyString then raise (FileNotFoundError p)
      else
        fun w =>
          if decide (p ∈ dirs w) then (Raise (IsADirectoryError p), w)
          else
            match paths w p with
            | Place k _ refuse_read =>
                match files w !! k with
                | None => (Raise (FileNotFoundError p), w)
                | Some text =>
                    match refuse_read with
                    | Some e => (Raise e, w)
                    | None => (Ret (VStr (universal_newlines text)), w)
                    end
                end
            | Unopenable why => (Raise (why Reading (files w)), w)
            | Device _ yields =>
                match yields with
                | Ret text => (Ret (VStr (universal_newlines text)), w)
                | Raise e => (Raise e, w)
                end
            end
  | _ => raise (TypeError "expected str, bytes or os.PathLike object")
  end.

(** ** The classes of [code.py] *)

Module Process.

Definition __init__ (args : list value) : M value :=
  match args with
  | [self; pid; name] =>
      setattr self "pid" pid ;;;
      setattr self "name" name ;;;
      setattr self "status" (VStr "running") ;;;
      ret VNone
  | _ => arity_error "Process.__init__"
  end.

Definition terminate (args : list value) : M value :=
  match args with
  | [self] =>
      setattr self "status" (VStr "terminated") ;;;
      ret VNone
  | _ => arity_error "Process.terminate"
  end.

End Process.

Module MemoryManager.

Definition __init__ (args : list value) : M value :=
  match args with
  | [self; total_memory] =>
      setattr self "total_memory" total_memory ;;;
      setattr self "free_memory" total_memory ;;;
      ret VNone
  | _ => arity_error "MemoryManager.__init__"
  end.

Definition allocate_memory (args : list value) : M value :=
  match args with
  | [self; process; memory_required] =>
      free <- getattr self "free_memory" ;;
      fits <- py_le memory_required free ;;
      if truthy fits then
        free <- getattr self "free_memory" ;;
        rest <- py_isub free memory_required ;;
        setattr self "free_memory" rest ;;;
        ret (VBool true)
      else
        ret (VBool false)
  | _ => arity_error "MemoryManager.allocate_memory"
  end.

Definition free_memory (args : list value) : M value :=
  match args with
  | [self; process; memory_to_free] =>
      free <- getattr self "free_memory" ;;
      sum <- py_iadd free memory_to_free ;;
      setattr self "free_memory" sum ;;;
      ret VNone
  | _ => arity_error "MemoryManager.free_memory"
  end.

End MemoryManager.

Module FileSystem.

Definition __init__ (args : list value) : M value :=
  match args with
  | [self; root_directory] =>
      setattr self "root_directory" root_directory ;;;
      ret VNone
  | _ => arity_error "FileSystem.__init__"
  end.

Definition create_file (args : list value) : M value :=
  match args with
  | [self; file_path; content] =>
      root <- getattr self "root_directory" ;;
      path <- os_path_join root file_path ;;
      write_text path content ;;;
      ret VNone
  | _ => arity_error "FileSystem.create_file"
  end.

Definition read_file (args : list value) : M value :=
  match args with
  | [self; file_path] =>
      root <- getattr self "root_directory" ;;
      path <- os_path_join root file_path ;;
      read_text path
  | _ => arity_error "FileSystem.read_file"
  end.

End FileSystem.

Module ProcessManager.

(** Modelled from the spec: the class [ProcessManager] is named by
    [DevOS.__init__] and defined nowhere in the source.  The spec's
    ProcessRegistry starts as an empty mapping from process identifier to
    process. *)
Definition __init__ (args : list value) : M value :=
  match args with
  | [self] =>
      setattr self "processes" (VDict ∅) ;;;
      ret VNone
  | _ => arity_error "ProcessManager.__init__"
  end.

(** Modelled from the spec: [add(process)] inserts by identifier and
    fails with DuplicateProcess if the identifier already exists.  The
    method has the name [DevOS.run_process] calls. *)
Definition add_process (args : list value) : M value :=
  match args with
  | [self; process] =>
      pid <- getattr process "pid" ;;
      table <- getattr self "processes" ;;
      match process, pid, table with
      | VRef p, VInt i, VDict d =>
          match d !! i with
          | Some _ => raise (DuplicateProcess i)
          | None => setattr self "processes" (VDict (<[i := p]> d)) ;;; ret VNone
          end
      | _, _, _ => raise (TypeError "a process with an integer identifier is expected")
      end
  | _ => arity_error "ProcessManager.add_process"
  end.

(** Modelled from the spec: [remove(identifier)] deletes the entry and
    fails with UnknownProcess if it is absent; the status of the process is
    left alone.  The method has the name [DevOS.terminate_process] calls and
    takes the process, whose identifier it reads. *)
Definition remove_process (args : list value) : M value :=
  match args with
  | [self; process] =>
      pid <- getattr process "pid" ;;
      table <- getattr self "processes" ;;
      match pid, table with
      | VInt i, VDict d =>
          match d !! i with
          | Some _ => setattr self "processes" (VDict (delete i d)) ;;; ret VNone
          | None => raise (UnknownProcess i)
          end
      | _, _ => raise (TypeError "a process with an integer identifier is expected")
      end
  | _ => arity_error "ProcessManager.remove_process"
  end.

(** Modelled from the spec: [lookup(identifier)] returns the process or
    fails with UnknownProcess. *)
Definition lookup (args : list value) : M value :=
  match args with
  | [self; identifier] =>
      table <- getattr self "processes" ;;
      match identifier, table with
      | VInt i, VDict d =>
          match d !! i with
          | Some p => ret (VRef p)
          | None => raise (UnknownProcess i)
          end
      | _, _ => raise (TypeError "an integer identifier is expected")
      end
  | _ => arity_error "ProcessManager.lookup"
  end.

End ProcessManager.

(** A global name is read from the module namespace.  No built-in bears any
    of the class names the program loads. *)
Definition load_global (globals : gmap string value) (name : string) : M value :=
  match globals !! name with
  | Some v => ret v
  | None => raise (NameError name)
  end.

(** How a method body calls a callable it has just looked up. *)
Abbreviation caller := (value -> list value -> M value).

Module DevOS.

Definition __init__ (globals : gmap string value) (call : caller)
    (args : list value) : M value :=
  match args with
  | [self; total_memory; root_directory] =>
      c <- load_global globals "ProcessManager" ;;
      pm <- call c [] ;;
      setattr self "process_manager" pm ;;;
      c <- load_global globals "MemoryManager" ;;
      mm <- call c [total_memory] ;;
      setattr self "memory_manager" mm ;;;
      c <- load_global globals "FileSystem" ;;
      fs <- call c [root_directory] ;;
      setattr self "file_system" fs ;;;
      ret VNone
  | _ => arity_error "DevOS.__init__"
  end.

Definition run_process (call : caller) (args : list value) : M value :=
  match args with
  | [self; process] =>
      mm <- getattr self "memory_manager" ;;
      allocate <- getattr mm "allocate_memory" ;;
      granted <- call allocate [process; VInt 1024] ;;
      if truthy granted then
        pm <- getattr self "process_manager" ;;
        add <- getattr pm "add_process" ;;
        call add [process] ;;;
        name <- getattr process "name" ;;
        print [Lit "Running process: "; field name] ;;;
        ret VNone
      else
        name <- getattr process "name" ;;
        print [Lit "Unable to run process: "; field name;
               Lit " (insufficient memory)"] ;;;
        ret VNone
  | _ => arity_error "DevOS.run_process"
  end.

Definition terminate_process (call : caller) (args : list value) : M value :=
  match args with
  | [self; process] =>
      mm <- getattr self "memory_manager" ;;
      free <- getattr mm "free_memory" ;;
      call free [process; VInt 1024] ;;;
      pm <- getattr self "process_manager" ;;
      remove <- getattr pm "remove_process" ;;
      call remove [process] ;;;
      terminate <- getattr process "terminate" ;;
      call terminate [] ;;;
      name <- getattr process "name" ;;
      print [Lit "Terminated process: "; field name] ;;;
      ret VNone
  | _ => arity_error "DevOS.terminate_process"
  end.

End DevOS.

(** ** Calls *)

Definition body (globals : gmap string value) (call : caller) (f : func)
    : list value -> M value :=
  match f with
  | def_Process_init => Process.__init__
  | def_Process_terminate => Process.terminate
  | def_MemoryManager_init => MemoryManager.__init__
  | def_MemoryManager_allocate_memory => MemoryManager.allocate_memory
  | def_MemoryManager_free_memory => MemoryManager.free_memory
  | def_FileSystem_init => FileSystem.__init__
  | def_FileSystem_create_file => FileSystem.create_file
  | def_FileSystem_read_file => FileSystem.read_file
  | def_DevOS_init => DevOS.__init__ globals call
  | def_DevOS_run_process => DevOS.run_process call
  | def_DevOS_terminate_process => DevOS.terminate_process call
  | def_ProcessManager_init => ProcessManager.__init__
  | def_ProcessManager_add_process => ProcessManager.add_process
  | def_ProcessManager_remove_process => ProcessManager.remove_process
  | def_ProcessManager_lookup => ProcessManager.lookup
  end.

(** [callee(args)].  A bound method passes its instance first; a class
    makes an instance, runs [__init__] on it and returns it; a value of any
    other kind is not callable. *)
Definition call_with (run : func -> list value -> M value) : caller :=
  fun callee args =>
    match callee with
    | VMethod f self => run f (VRef self :: args)
    | VFunc f => run f args
    | VClass c =>
        l <- new_object c ;;
        match class_dict c "__init__" with
        | Some init => run init (VRef l :: args) ;;; ret (VRef l)
        | None =>
            match args with
            | [] => ret (VRef l)
            | _ => arity_error (class_name c)
            end
        end
    | _ =>
        t <- type_name callee ;;
        raise (TypeError ("'" ++ t ++ "' object is not callable"))
    end.

(** Running a function takes one frame of the interpreter's stack; with no
    frame left Python raises [RecursionError]. *)
Fixpoint invoke (globals : gmap string value) (depth : nat) (f : func)
    (args : list value) : M value :=
  match depth with
  | O => raise RecursionError
  | S d => body globals (call_with (invoke globals d)) f args
  end.

Definition call (globals : gmap string value) (depth : nat) : caller :=
  call_with (invoke globals depth).

(** The names bound at the top level of [code.py]: the two imports and the
    four class statements.  There is no binding of [ProcessManager]. *)
Definition module_globals : gmap string value :=
  {[ "os" := VModule "os";
     "time" := VModule "time";
     "Process" := VClass C_Process;
     "MemoryManager" := VClass C_MemoryManager;
     "FileSystem" := VClass C_FileSystem;
     "DevOS" := VClass C_DevOS ]}.

(** The namespace of a run in which the missing class has been supplied. *)
Definition globals_with_registry : gmap string value :=
  <["ProcessManager" := VClass C_ProcessManager]> module_globals.

Definition empty_world : world := World ∅ [] ∅ ∅.

(** ** Instances as the constructors leave them *)

Definition MemoryManager_instance (total free : Z) : object :=
  Object C_MemoryManager
    {[ "total_memory" := VInt total; "free_memory" := VInt free ]}.

Definition Process_instance (pid name status : value) : object :=
  Object C_Process {[ "pid" := pid; "name" := name; "status" := status ]}.

Definition FileSystem_instance (root : string) : object :=
  Object C_FileSystem {[ "root_directory" := VStr root ]}.

Definition DevOS_instance (pm mm fs : loc) : object :=
  Object C_DevOS
    {[ "process_manager" := VRef pm; "memory_manager" := VRef mm;
       "file_system" := VRef fs ]}.

(** The instance attribute [attr] of the object at [l], if both exist. *)
Definition attribute (w : world) (l : loc) (attr : string) : option value :=
  o ← heap w !! l; obj_dict o !! attr.

(** The line [run_process] prints when it turns a process away. *)
Definition rejection (name : value) : list piece :=
  [Lit "Unable to run process: "; field name; Lit " (insufficient memory)"].

(** [run_process] on each process of a list in turn, stopping at the first
    exception. *)
Fixpoint run_each (run : caller) (self : value) (processes : list loc) : M unit :=
  match processes with
  | [] => ret tt
  | p :: rest =>
      DevOS.run_process run [self; VRef p] ;;;
      run_each run self rest
  end.

Definition name_of (w : world) (p : loc) : value :=
  default VNone (attribute w p "name").



(** ** Runs of the program *)

Definition recursion_limit : nat := 1000.

Section Run.

Variable globals : gmap string value.

(** [DevOS(total_memory=total, root_directory="/")] *)
Definition boot (total : Z) : M value :=
  c <- load_global globals "DevOS" ;;
  call globals recursion_limit c [VInt total; VStr "/"].

(** [Process(pid=pid, name=name)] *)
Definition spawn (pid : Z) (name : string) : M value :=
  c <- load_global globals "Process" ;;
  call globals recursion_limit c [VInt pid; VStr name].

(** [devos.run_process(p)] *)
Definition devos_run_process (d p : value) : M value :=
  run <- getattr d "run_process" ;;
  call globals recursion_limit run [p].

(** [devos.terminate_process(p)] *)
Definition devos_terminate_process (d p : value) : M value :=
  stop <- getattr d "terminate_process" ;;
  call globals recursion_limit stop [p].

(** [devos.memory_manager.free_memory], read as data *)
Definition free_capacity (d : value) : M value :=
  mm <- getattr d "memory_manager" ;;
  getattr mm "free_memory".

(** The registry's entry for the identifier of [p]. *)
Definition registered (d p : value) : M value :=
  pm <- getattr d "process_manager" ;;
  pid <- getattr p "pid" ;;
  ProcessManager.lookup [pm; pid].

End Run.

(** What is observed of a world: the outcome of a read-only statement. *)
Definition observe {A} (c : M A) (w : world) : outcome A := fst (c w).

(** The cast of the example at the foot of [code.py], with a third process:
    a supervisor over 4096 units of memory and three processes, run in a
    namespace that supplies the registry class. *)
Definition scenario_A : M (value * value * value * value) :=
  d <- boot globals_with_registry 4096 ;;
  p1 <- spawn globals_with_registry 1 "Process 1" ;;
  p2 <- spawn globals_with_registry 2 "Process 2" ;;
  p3 <- spawn globals_with_registry 3 "Process 3" ;;
  ret (d, p1, p2, p3).

(** A supervisor over 1024 units of memory and two processes, the first of
    them already run. *)
Definition scenario_B : M (value * value * value) :=
  d <- boot globals_with_registry 1024 ;;
  p1 <- spawn globals_with_registry 1 "Process 1" ;;
  p2 <- spawn globals_with_registry 2 "Process 2" ;;
  devos_run_process globals_with_registry d p1 ;;;
  ret (d, p1, p2).


(** [allocate_memory] for each amount of a list in turn, on the same
    allocator, collecting what each call returned. *)
Fixpoint allocate_each (m p : value) (amounts : list Z) : M (list value) :=
  match amounts with
  | [] => ret []
  | amount :: rest =>
      granted <- MemoryManager.allocate_memory [m; p; VInt amount] ;;
      others <- allocate_each m p rest ;;
      ret (granted :: others)
  end.

(** The sum of the amounts whose call returned True. *)
Fixpoint granted_total (results : list value) (amounts : list Z) : Z :=
  match results, amounts with
  | r :: results', amount :: amounts' =>
      (if truthy r then amount else 0) + granted_total results' amounts'
  | _, _ => 0
  end.

(** The registry as its constructor leaves it and [add_process] and
    [remove_process] keep it. *)
Definition ProcessManager_instance (registry : gmap Z loc) : object :=
  Object C_ProcessManager {[ "processes" := VDict registry ]}.

(** The registry after the given processes, each a location and its
    identifier, have been added in order. *)
Definition register_all (registry : gmap Z loc) (processes : list (loc * Z))
    : gmap Z loc :=
  foldl (fun r p => <[p.2 := p.1]> r) registry processes.


(** [MemoryManager(4096)] and [Process(1, "Process 1")], in the namespace
    of the file. *)
Definition scenario_release : M (value * value) :=
  c <- load_global module_globals "MemoryManager" ;;
  m <- call module_globals recursion_limit c [VInt 4096] ;;
  p <- spawn module_globals 1 "Process 1" ;;
  ret (m, p).

(** The example at the foot of [code.py], lines 147 to 165, as the script
    runs it. *)
Definition main (globals : gmap string value) : M value :=
  devos <- boot globals 4096 ;;
  process1 <- spawn globals 1 "Process 1" ;;
  process2 <- spawn globals 2 "Process 2" ;;
  devos_run_process globals devos process1 ;;;
  devos_run_process globals devos process2 ;;;
  devos_terminate_process globals devos process1 ;;;
  fs <- getattr devos "file_system" ;;
  create <- getattr fs "create_file" ;;
  call globals recursion_limit create
    [VStr "example.txt"; VStr "This is an example file."] ;;;
  fs <- getattr devos "file_system" ;;
  read <- getattr fs "read_file" ;;
  content <- call globals recursion_limit read [VStr "example.txt"] ;;
  print [Lit "File content: "; field content] ;;;
  ret VNone.

(** * Properties *)

(** ** Running a body one statement at a time *)

Lemma bind_ret {A B} (c : M A) (k : A -> M B) w a w' :
  c w = (Ret a, w') -> bind c k w = k a w'.
Proof. intros H. unfold bind. now rewrite H. Qed.

Lemma bind_raise {A B} (c : M A) (k : A -> M B) w e w' :
  c w = (Raise e, w') -> bind c k w = (Raise e, w').
Proof. intros H. unfold bind. now rewrite H. Qed.

Lemma getattr_dict w l o attr x :
  heap w !! l = Some o -> obj_dict o !! attr = Some x ->
  getattr (VRef l) attr w = (Ret x, w).
Proof.
  intros Hl Hx. cbv [getattr deref get_heap bind ret]. now rewrite Hl, Hx.
Qed.

Lemma getattr_class w l o attr f :
  heap w !! l = Some o -> obj_dict o !! attr = None ->
  class_dict (obj_class o) attr = Some f ->
  getattr (VRef l) attr w = (Ret (VMethod f l), w).
Proof.
  intros Hl Hx Hf. cbv [getattr deref get_heap bind ret]. now rewrite Hl, Hx, Hf.
Qed.

Lemma setattr_ref w l o attr x :
  heap w !! l = Some o ->
  setattr (VRef l) attr x w
  = (Ret tt,
     with_heap w (<[l := Object (obj_class o) (<[attr := x]> (obj_dict o))]> (heap w))).
Proof.
  intros Hl. cbv [setattr deref get_heap set_heap bind ret]. now rewrite Hl.
Qed.

(** [step H] runs the first statement of the goal by the equation [H];
    [pure_step] runs one that computes without reading the heap. *)
Ltac step H := rewrite (bind_ret _ _ _ _ _ H).
Ltac pure_step := erewrite bind_ret by reflexivity.

(** ** The allocator *)

Lemma free_memory_attribute w m total free :
  heap w !! m = Some (MemoryManager_instance total free) ->
  getattr (VRef m) "free_memory" w = (Ret (VInt free), w).
Proof. intros Hm. eapply getattr_dict; [exact Hm | reflexivity]. Qed.

Lemma set_free_memory w m total free free' :
  heap w !! m = Some (MemoryManager_instance total free) ->
  setattr (VRef m) "free_memory" (VInt free') w
  = (Ret tt, with_heap w (<[m := MemoryManager_instance total free']> (heap w))).
Proof. intros Hm. now rewrite (setattr_ref _ _ _ _ _ Hm). Qed.

Lemma allocate_memory_int w m p total free amount :
  heap w !! m = Some (MemoryManager_instance total free) ->
  MemoryManager.allocate_memory [VRef m; p; VInt amount] w
  = if amount <=? free
    then (Ret (VBool true),
          with_heap w (<[m := MemoryManager_instance total (free - amount)]> (heap w)))
    else (Ret (VBool false), w).
Proof.
  intros Hm. unfold MemoryManager.allocate_memory.
  step (free_memory_attribute _ _ _ _ Hm). pure_step. cbn [truthy].
  destruct (amount <=? free); [| reflexivity].
  step (free_memory_attribute _ _ _ _ Hm). pure_step.
  now step (set_free_memory _ _ _ _ (free - amount) Hm).
Qed.

(** C1.  In every world where [m] is an allocator with [0 <= free], and for
    every [amount >= 0]: when [amount <= free], [allocate_memory] returns
    True and the allocator is left with [free - amount], still not negative,
    and the same total; when [free < amount], it returns False and the world,
    so both free and total, is exactly as before.  Nothing is granted in
    part. *)
Theorem allocate_memory_grants_or_refuses
    (w : world) (m : loc) (p : value) (total free amount : Z) :
  heap w !! m = Some (MemoryManager_instance total free) ->
  0 <= free -> 0 <= amount ->
  (amount <= free ->
     MemoryManager.allocate_memory [VRef m; p; VInt amount] w
     = (Ret (VBool true),
        with_heap w (<[m := MemoryManager_instance total (free - amount)]> (heap w)))
     /\ 0 <= free - amount) /\
  (free < amount ->
     MemoryManager.allocate_memory [VRef m; p; VInt amount] w = (Ret (VBool false), w)).
Proof.
  intros Hm Hfree Hamount.
  rewrite (allocate_memory_int _ _ _ _ _ _ Hm).
  split; intros Hcmp.
  - replace (amount <=? free) with true by (symmetry; now apply Z.leb_le).
    split; [reflexivity | lia].
  - now replace (amount <=? free) with false by (symmetry; now apply Z.leb_gt).
Qed.

Lemma allocate_memory_grants_or_refuses_witness :
  let w := World {[ 1%positive := MemoryManager_instance 4096 4096 ]} [] ∅ ∅ in
  (1024 <= 4096 ->
     MemoryManager.allocate_memory [VRef 1; VNone; VInt 1024] w
     = (Ret (VBool true),
        with_heap w (<[1%positive := MemoryManager_instance 4096 (4096 - 1024)]> (heap w)))
     /\ 0 <= 4096 - 1024) /\
  (4096 < 1024 ->
     MemoryManager.allocate_memory [VRef 1; VNone; VInt 1024] w = (Ret (VBool false), w)).
Proof.
  intros w.
  apply (allocate_memory_grants_or_refuses w 1 VNone 4096 4096 1024);
    [reflexivity | lia | lia].
Defined.

Lemma free_memory_int w m p total free amount :
  heap w !! m = Some (MemoryManager_instance total free) ->
  MemoryManager.free_memory [VRef m; p; VInt amount] w
  = (Ret VNone,
     with_heap w (<[m := MemoryManager_instance total (free + amount)]> (heap w))).
Proof.
  intros Hm. unfold MemoryManager.free_memory.
  step (free_memory_attribute _ _ _ _ Hm). pure_step.
  now step (set_free_memory _ _ _ _ (free + amount) Hm).
Qed.

(** C7.  The specification has the release add the amount to free,
    whatever the amount.  On the allocator [MemoryManager(4096)], the call
    [m.free_memory(p, 1024)] raises TypeError and leaves the world as it
    was: free is still 4096, not 4096 + 1024.  The function of that name
    does add when it is reached through the class,
    [MemoryManager.free_memory(m, p, 1024)], which leaves 5120: the body is
    what the specification says, and the name of the attribute keeps every
    instance from reaching it. *)
Theorem release_through_an_instance_raises :
  match scenario_release empty_world with
  | (Ret (m, p), w) =>
      (release <- getattr m "free_memory" ;;
       call module_globals recursion_limit release [p; VInt 1024]) w
      = (Raise (TypeError "'int' object is not callable"), w) /\
      observe (getattr m "free_memory") w = Ret (VInt 4096) /\
      4096 <> 4096 + 1024 /\
      observe (release <- getattr (VClass C_MemoryManager) "free_memory" ;;
               call module_globals recursion_limit release [m; p; VInt 1024] ;;;
               getattr m "free_memory") w
      = Ret (VInt (4096 + 1024))
  | _ => False
  end.
Proof. vm_compute. repeat split; (reflexivity || discriminate). Qed.

(** ** Construction of an allocator *)

Lemma construct_MemoryManager globals depth total w :
  call globals (S depth) (VClass C_MemoryManager) [total] w
  = (Ret (VRef (fresh (dom (heap w)))),
     with_heap w
       (<[fresh (dom (heap w)) :=
            Object C_MemoryManager
              {[ "total_memory" := total; "free_memory" := total ]}]> (heap w))).
Proof.
  set (l := fresh (dom (heap w))).
  unfold call, call_with.
  assert (Hnew : new_object C_MemoryManager w
                 = (Ret l, with_heap w (<[l := Object C_MemoryManager ∅]> (heap w))))
    by reflexivity.
  step Hnew.
  change (class_dict C_MemoryManager "__init__") with (Some def_MemoryManager_init).
  cbv iota.
  change (invoke globals (S depth) def_MemoryManager_init)
    with MemoryManager.__init__.
  unfold MemoryManager.__init__.
  erewrite bind_ret; cycle 1.
  { erewrite bind_ret; cycle 1.
    { apply setattr_ref. cbn [heap with_heap]. apply lookup_insert_eq. }
    erewrite bind_ret; cycle 1.
    { apply setattr_ref. cbn [heap with_heap]. apply lookup_insert_eq. }
    reflexivity. }
  cbv [ret with_heap heap stdout files dirs paths obj_class obj_dict].
  rewrite !insert_insert_eq. reflexivity.
Qed.

(** ** The instance attribute [free_memory] is an integer in every
       reachable world *)









(** ** Construction of the supervisor *)

(** C4.  The namespace of [code.py] binds no name [ProcessManager].  So
    [DevOS(total_memory, root_directory)], for any two arguments and in any
    world, raises NameError for that name at the first statement of
    [__init__]: the call returns no instance, the instance under
    construction has no attribute yet and nothing refers to it, and no
    object that existed is changed.  The expression that opens the example
    script, [DevOS(total_memory=total, root_directory="/")], fails the same
    way for every total. *)
Theorem DevOS_construction_raises_NameError
    (depth : nat) (total_memory root_directory : value) (w : world) :
  module_globals !! "ProcessManager" = None /\
  call module_globals (S depth) (VClass C_DevOS) [total_memory; root_directory] w
  = (Raise (NameError "ProcessManager"),
     with_heap w (<[fresh (dom (heap w)) := Object C_DevOS ∅]> (heap w))) /\
  forall total : Z,
    boot module_globals total w
    = (Raise (NameError "ProcessManager"),
       with_heap w (<[fresh (dom (heap w)) := Object C_DevOS ∅]> (heap w))).
Proof.
  assert (Hunbound : module_globals !! "ProcessManager" = None) by reflexivity.
  assert (Hload : forall w', load_global module_globals "ProcessManager" w'
                             = (Raise (NameError "ProcessManager"), w')).
  { intros w'. unfold load_global. now rewrite Hunbound. }
  assert (Hcall : forall d x y,
             call module_globals (S d) (VClass C_DevOS) [x; y] w
             = (Raise (NameError "ProcessManager"),
                with_heap w (<[fresh (dom (heap w)) := Object C_DevOS ∅]> (heap w)))).
  { intros d x y. unfold call, call_with.
    assert (Hnew : new_object C_DevOS w
                   = (Ret (fresh (dom (heap w))),
                      with_heap w (<[fresh (dom (heap w)) := Object C_DevOS ∅]> (heap w))))
      by reflexivity.
    step Hnew.
    change (class_dict C_DevOS "__init__") with (Some def_DevOS_init). cbv iota.
    change (invoke module_globals (S d) def_DevOS_init)
      with (DevOS.__init__ module_globals (call module_globals d)).
    apply bind_raise. unfold DevOS.__init__. apply bind_raise. apply Hload. }
  split; [exact Hunbound |]. split; [apply Hcall |].
  intros total. unfold boot.
  erewrite bind_ret by reflexivity. apply (Hcall 999%nat).
Qed.

(** ** Admission *)

Lemma run_process_rejects globals depth w self pm mm fs total free p pid name status :
  heap w !! self = Some (DevOS_instance pm mm fs) ->
  heap w !! mm = Some (MemoryManager_instance total free) ->
  heap w !! p = Some (Process_instance pid name status) ->
  free < 1024 ->
  DevOS.run_process (call globals (S depth)) [VRef self; VRef p] w
  = (Ret VNone, with_line w (rejection name)).
Proof.
  intros Hself Hm Hp Hfree. unfold DevOS.run_process.
  erewrite bind_ret by (eapply getattr_dict; [exact Hself | reflexivity]).
  erewrite bind_ret
    by (eapply getattr_class; [exact Hm | reflexivity | reflexivity]).
  change (call globals (S depth) (VMethod def_MemoryManager_allocate_memory mm)
            [VRef p; VInt 1024])
    with (MemoryManager.allocate_memory [VRef mm; VRef p; VInt 1024]).
  assert (Hrefused : MemoryManager.allocate_memory [VRef mm; VRef p; VInt 1024] w
                     = (Ret (VBool false), w)).
  { rewrite (allocate_memory_int _ _ _ _ _ _ Hm).
    now replace (1024 <=? free) with false by (symmetry; now apply Z.leb_gt). }
  step Hrefused. cbn [truthy].
  erewrite bind_ret by (eapply getattr_dict; [exact Hp | reflexivity]).
  reflexivity.
Qed.

(** C6.  For every supervisor whose allocator has less than the quota of
    1024 free, and every process, [run_process] returns normally and leaves
    the heap as it was: the allocator's free capacity, the registry and its
    entries, and the status of the process are unchanged, so the process has
    not been registered.  The file store is unchanged too.  The one effect
    is the line "Unable to run process: <name> (insufficient memory)" added
    to the output. *)
Theorem run_process_rejection_changes_nothing
    (globals : gmap string value) (depth : nat) (w : world)
    (self pm mm fs : loc) (total free : Z) (p : loc) (pid name status : value) :
  heap w !! self = Some (DevOS_instance pm mm fs) ->
  heap w !! mm = Some (MemoryManager_instance total free) ->
  heap w !! p = Some (Process_instance pid name status) ->
  free < 1024 ->
  exists w',
    DevOS.run_process (call globals (S depth)) [VRef self; VRef p] w = (Ret VNone, w') /\
    heap w' = heap w /\
    files w' = files w /\
    dirs w' = dirs w /\
    stdout w' = (stdout w ++ [rejection name])%list.
Proof.
  intros Hself Hm Hp Hfree. exists (with_line w (rejection name)).
  split; [| now repeat split].
  now apply run_process_rejects with pm mm fs total free pid status.
Qed.

Lemma run_process_rejection_changes_nothing_witness :
  let w := snd (scenario_B empty_world) in
  exists w',
    DevOS.run_process (call globals_with_registry 1) [VRef 1; VRef 6] w = (Ret VNone, w') /\
    heap w' = heap w /\
    files w' = files w /\
    dirs w' = dirs w /\
    stdout w' = (stdout w ++ [rejection (VStr "Process 2")])%list.
Proof.
  intros w.
  apply (run_process_rejection_changes_nothing
           globals_with_registry 0 w 1 2 3 4 1024 0 6
           (VInt 2) (VStr "Process 2") (VStr "running"));
    [reflexivity | reflexivity | reflexivity | lia].
Defined.

Lemma attribute_name w p pid name status :
  heap w !! p = Some (Process_instance pid name status) ->
  name_of w p = name.
Proof. intros Hp. unfold name_of, attribute. now rewrite Hp. Qed.

Lemma run_each_rejects globals depth self pm mm fs total processes :
  forall w,
    heap w !! self = Some (DevOS_instance pm mm fs) ->
    heap w !! mm = Some (MemoryManager_instance total 0) ->
    Forall (fun p => exists pid name status,
                heap w !! p = Some (Process_instance pid name status)) processes ->
    exists w',
      run_each (call globals (S depth)) (VRef self) processes w = (Ret tt, w') /\
      heap w' = heap w /\
      stdout w' = (stdout w ++ map (fun p => rejection (name_of w p)) processes)%list.
Proof.
  induction processes as [| p rest IH]; intros w Hself Hm Hall.
  - exists w. cbn [run_each map]. now rewrite app_nil_r.
  - inversion Hall as [| ? ? (pid & name & status & Hp) Hrest]; subst.
    destruct (IH (with_line w (rejection name))) as (w' & Hrun & Hheap & Hout);
      try assumption.
    exists w'. cbn [run_each].
    erewrite bind_ret
      by (apply run_process_rejects with pm mm fs total 0 pid status;
          (eassumption || lia)).
    split; [exact Hrun |]. split; [exact Hheap |].
    rewrite Hout. cbn [with_line stdout map].
    rewrite (attribute_name w p pid name status Hp), <- app_assoc.
    reflexivity.
Qed.

(** C9.  For every supervisor whose allocator has 0 free, and every list
    of processes: running [run_process] on each in turn, with no
    [terminate_process] in between, rejects every one of them.  Each call
    returns normally, the heap at the end is the heap at the start (free is
    still 0 and the registry holds what it held, so no rejected process was
    registered), and the output has grown by one rejection line per process,
    in order. *)
Theorem exhausted_allocator_rejects_every_admission
    (globals : gmap string value) (depth : nat) (w : world)
    (self pm mm fs : loc) (total : Z) (processes : list loc) :
  heap w !! self = Some (DevOS_instance pm mm fs) ->
  heap w !! mm = Some (MemoryManager_instance total 0) ->
  Forall (fun p => exists pid name status,
              heap w !! p = Some (Process_instance pid name status)) processes ->
  exists w',
    run_each (call globals (S depth)) (VRef self) processes w = (Ret tt, w') /\
    heap w' = heap w /\
    attribute w' mm "free_memory" = Some (VInt 0) /\
    attribute w' pm "processes" = attribute w pm "processes" /\
    stdout w' = (stdout w ++ map (fun p => rejection (name_of w p)) processes)%list.
Proof.
  intros Hself Hm Hall.
  destruct (run_each_rejects globals depth self pm mm fs total processes w Hself Hm Hall)
    as (w' & Hrun & Hheap & Hout).
  exists w'. split; [exact Hrun |]. split; [exact Hheap |].
  unfold attribute. rewrite Hheap, Hm. now repeat split.
Qed.

Lemma exhausted_allocator_rejects_every_admission_witness :
  let w := snd (scenario_B empty_world) in
  fst (scenario_B empty_world) = Ret (VRef 1, VRef 5, VRef 6) /\
  exists w',
    run_each (call globals_with_registry 1) (VRef 1) [6%positive] w = (Ret tt, w') /\
    heap w' = heap w /\
    attribute w' 3 "free_memory" = Some (VInt 0) /\
    attribute w' 2 "processes" = attribute w 2 "processes" /\
    stdout w' = (stdout w ++ map (fun p => rejection (name_of w p)) [6%positive])%list.
Proof.
  intros w. split; [reflexivity |].
  apply (exhausted_allocator_rejects_every_admission
           globals_with_registry 0 w 1 2 3 4 1024 [6%positive]).
  - reflexivity.
  - reflexivity.
  - repeat constructor.
    exists (VInt 2), (VStr "Process 2"), (VStr "running"). reflexivity.
Defined.

(** ** Termination

    The three runs below start from [scenario_A]: the supervisor is built
    in a namespace that supplies the registry class, since in the namespace
    of the file it cannot be built at all. *)

(** C2.  The specification has [terminate_process] release the quota,
    then remove the process from the registry, then mark it terminated, and
    print a line.  On the supervisor of the example, with Process 1
    running: the call raises TypeError at the release and leaves the world
    exactly as it found it.  Free capacity is still 3072, the registry still
    holds Process 1, its status is still "running", and the output is still
    the one line printed when it was started. *)
Theorem terminate_process_stops_at_the_release :
  match scenario_A empty_world with
  | (Ret (d, p1, _, _), w0) =>
      let (_, w1) := devos_run_process globals_with_registry d p1 w0 in
      devos_terminate_process globals_with_registry d p1 w1
      = (Raise (TypeError "'int' object is not callable"), w1) /\
      observe (free_capacity d) w1 = Ret (VInt 3072) /\
      observe (registered d p1) w1 = Ret p1 /\
      observe (getattr p1 "status") w1 = Ret (VStr "running") /\
      stdout w1 = [[Lit "Running process: "; Lit "Process 1"]]
  | _ => False
  end.
Proof. vm_compute. repeat split; reflexivity. Qed.

(** C5.  The specification has free, after a correctly paired sequence,
    equal to free before minus (started - terminated) times the quota.  On
    the sequence "run Process 1, terminate Process 1" from 4096 free: the
    first call succeeds, the second raises TypeError, and free is 3072 at
    the end, where the equation gives 4096 - (1 - 1) * 1024 = 4096. *)
Theorem run_then_terminate_leaves_the_quota_taken :
  match scenario_A empty_world with
  | (Ret (d, p1, _, _), w0) =>
      let (r1, w1) := devos_run_process globals_with_registry d p1 w0 in
      let (r2, w2) := devos_terminate_process globals_with_registry d p1 w1 in
      observe (free_capacity d) w0 = Ret (VInt 4096) /\
      r1 = Ret VNone /\
      r2 = Raise (TypeError "'int' object is not callable") /\
      observe (free_capacity d) w2 = Ret (VInt 3072) /\
      3072 <> 4096 - (1 - 1) * 1024
  | _ => False
  end.
Proof. vm_compute. repeat split; (reflexivity || discriminate). Qed.

(** C8.  Scenario A on the code, each call made whatever the one before
    it did: running Process 1 leaves 3072 free and running Process 2 leaves
    2048, as specified; terminating Process 1 raises TypeError and leaves 2048
    free, Process 1 in the registry and its status "running", where the
    specification has 3072, removed and Terminated; running Process 3 then
    leaves 1024 free, where the specification has 2048. *)
Theorem scenario_A_stops_at_terminate :
  match scenario_A empty_world with
  | (Ret (d, p1, p2, p3), w0) =>
      let (r1, w1) := devos_run_process globals_with_registry d p1 w0 in
      let (r2, w2) := devos_run_process globals_with_registry d p2 w1 in
      let (r3, w3) := devos_terminate_process globals_with_registry d p1 w2 in
      let (r4, w4) := devos_run_process globals_with_registry d p3 w3 in
      (r1 = Ret VNone /\ observe (free_capacity d) w1 = Ret (VInt 3072)) /\
      (r2 = Ret VNone /\ observe (free_capacity d) w2 = Ret (VInt 2048)) /\
      (r3 = Raise (TypeError "'int' object is not callable") /\
       observe (free_capacity d) w3 = Ret (VInt 2048) /\
       observe (registered d p1) w3 = Ret p1 /\
       observe (getattr p1 "status") w3 = Ret (VStr "running")) /\
      (r4 = Ret VNone /\ observe (free_capacity d) w4 = Ret (VInt 1024))
  | _ => False
  end.
Proof. vm_compute. repeat split; reflexivity. Qed.

(** ** The file store *)


Lemma root_directory_attribute w fs root :
  heap w !! fs = Some (FileSystem_instance root) ->
  getattr (VRef fs) "root_directory" w = (Ret (VStr root), w).
Proof. intros Hfs. eapply getattr_dict; [exact Hfs | reflexivity]. Qed.

Lemma create_file_runs w fs root path content :
  heap w !! fs = Some (FileSystem_instance root) ->
  FileSystem.create_file [VRef fs; VStr path; content] w
  = (write_text (VStr (posix_join root path)) content ;;; ret VNone) w.
Proof.
  intros Hfs. unfold FileSystem.create_file.
  step (root_directory_attribute _ _ _ Hfs). now pure_step.
Qed.

Lemma read_file_runs w fs root path :
  heap w !! fs = Some (FileSystem_instance root) ->
  FileSystem.read_file [VRef fs; VStr path] w
  = read_text (VStr (posix_join root path)) w.
Proof.
  intros Hfs. unfold FileSystem.read_file.
  step (root_directory_attribute _ _ _ Hfs). now pure_step.
Qed.

Lemma write_text_at_place w p k refuse_read content :
  openable w p ->
  paths w p = Place k None refuse_read ->
  write_text (VStr p) (VStr content) w
  = (Ret tt, with_files w (<[k := content]> (files w))).
Proof.
  intros (Hnul & Hnonempty & Hfile) Hplace.
  unfold write_text. rewrite Hnul, Hnonempty, Hplace.
  now destruct (decide (p ∈ dirs w)).
Qed.








(** ** Processes *)

Lemma fresh_unused (h : gmap loc object) : h !! fresh (dom h) = None.
Proof. apply not_elem_of_dom, is_fresh. Qed.

Lemma construct_Process globals depth pid name w :
  call globals (S depth) (VClass C_Process) [pid; name] w
  = (Ret (VRef (fresh (dom (heap w)))),
     with_heap w
       (<[fresh (dom (heap w)) := Process_instance pid name (VStr "running")]> (heap w))).
Proof.
  set (l := fresh (dom (heap w))).
  unfold call, call_with.
  assert (Hnew : new_object C_Process w
                 = (Ret l, with_heap w (<[l := Object C_Process ∅]> (heap w))))
    by reflexivity.
  step Hnew.
  change (class_dict C_Process "__init__") with (Some def_Process_init).
  cbv iota.
  change (invoke globals (S depth) def_Process_init) with Process.__init__.
  unfold Process.__init__.
  erewrite bind_ret; cycle 1.
  { erewrite bind_ret; cycle 1.
    { apply setattr_ref. cbn [heap with_heap]. apply lookup_insert_eq. }
    erewrite bind_ret; cycle 1.
    { apply setattr_ref. cbn [heap with_heap]. apply lookup_insert_eq. }
    erewrite bind_ret; cycle 1.
    { apply setattr_ref. cbn [heap with_heap]. apply lookup_insert_eq. }
    reflexivity. }
  cbv [ret with_heap heap stdout files dirs paths obj_class obj_dict].
  rewrite !insert_insert_eq. reflexivity.
Qed.

(** X1.  [Process(pid, name)], for any two values and in any world, returns
    a new instance whose pid and name are the arguments and whose status is
    "running".  The instance sits at a location that held nothing, every
    other object is as it was, and nothing is printed or written. *)
Theorem Process_constructor_makes_a_running_process
    (globals : gmap string value) (depth : nat) (pid name : value) (w : world) :
  exists l w',
    call globals (S depth) (VClass C_Process) [pid; name] w = (Ret (VRef l), w') /\
    heap w !! l = None /\
    heap w' !! l = Some (Process_instance pid name (VStr "running")) /\
    (forall l', l' <> l -> heap w' !! l' = heap w !! l') /\
    stdout w' = stdout w /\ files w' = files w.
Proof.
  eexists _, _. split; [apply construct_Process |].
  split; [apply fresh_unused |]. cbn [with_heap heap stdout files].
  split; [apply lookup_insert_eq |].
  split; [| now split].
  intros l' Hl'. now apply lookup_insert_ne.
Qed.

Lemma status_set w p pid name status status' :
  heap w !! p = Some (Process_instance pid name status) ->
  setattr (VRef p) "status" status' w
  = (Ret tt, with_heap w (<[p := Process_instance pid name status']> (heap w))).
Proof. intros Hp. now rewrite (setattr_ref _ _ _ _ _ Hp). Qed.

Lemma terminate_method globals depth w p pid name status :
  heap w !! p = Some (Process_instance pid name status) ->
  (stop <- getattr (VRef p) "terminate" ;; call globals (S depth) stop []) w
  = (Ret VNone,
     with_heap w (<[p := Process_instance pid name (VStr "terminated")]> (heap w))).
Proof.
  intros Hp.
  erewrite bind_ret
    by (eapply getattr_class; [exact Hp | reflexivity | reflexivity]).
  change (call globals (S depth) (VMethod def_Process_terminate p) [])
    with (Process.terminate [VRef p]).
  unfold Process.terminate.
  now step (status_set _ _ _ _ _ (VStr "terminated") Hp).
Qed.

(** X2.  On every Process instance, whatever its status, [p.terminate()]
    resolves to the method (no attribute of the instance hides it), returns
    None and sets the status to "terminated", keeping pid and name and every
    other object.  A second call returns None and changes nothing. *)
Theorem Process_terminate_is_idempotent
    (globals : gmap string value) (depth : nat) (w : world)
    (p : loc) (pid name status : value) :
  heap w !! p = Some (Process_instance pid name status) ->
  let once := (stop <- getattr (VRef p) "terminate" ;; call globals (S depth) stop []) in
  exists w',
    once w = (Ret VNone, w') /\
    heap w' !! p = Some (Process_instance pid name (VStr "terminated")) /\
    (forall l, l <> p -> heap w' !! l = heap w !! l) /\
    once w' = (Ret VNone, w').
Proof.
  intros Hp once.
  exists (with_heap w (<[p := Process_instance pid name (VStr "terminated")]> (heap w))).
  split; [now apply terminate_method with status |].
  split; [apply lookup_insert_eq |].
  split; [intros l Hl; now apply lookup_insert_ne |].
  unfold once.
  rewrite (terminate_method globals depth _ p pid name (VStr "terminated"))
    by apply lookup_insert_eq.
  cbn [with_heap heap stdout files dirs paths]. now rewrite insert_insert_eq.
Qed.

Lemma Process_terminate_is_idempotent_witness :
  let w := World {[ 1%positive := Process_instance (VInt 1) (VStr "Process 1")
                                    (VStr "terminated") ]} [] ∅ ∅ in
  let once := (stop <- getattr (VRef 1) "terminate" ;; call module_globals 1 stop []) in
  exists w',
    once w = (Ret VNone, w') /\
    heap w' !! 1%positive
    = Some (Process_instance (VInt 1) (VStr "Process 1") (VStr "terminated")) /\
    (forall l, l <> 1%positive -> heap w' !! l = heap w !! l) /\
    once w' = (Ret VNone, w').
Proof.
  intros w.
  apply (Process_terminate_is_idempotent module_globals 0 w 1
           (VInt 1) (VStr "Process 1") (VStr "terminated")).
  reflexivity.
Defined.

(** ** Sequences of allocations and releases *)

Lemma world_eta w : MkWorld (heap w) (stdout w) (files w) (dirs w) (paths w) = w.
Proof. now destruct w. Qed.

Lemma with_heap_same w l o :
  heap w !! l = Some o -> with_heap w (<[l := o]> (heap w)) = w.
Proof. intros Hl. unfold with_heap. rewrite (insert_id _ _ _ Hl). apply world_eta. Qed.

(** X3.  On every allocator, for every amount that fits ([amount <= free]):
    [allocate_memory] followed by the function [free_memory] with the same
    amount, called through the class, returns True and leaves the world
    exactly as it was before the allocation. *)
Theorem allocate_then_release_restores
    (globals : gmap string value) (depth : nat)
    (w : world) (m : loc) (p : value) (total free amount : Z) :
  heap w !! m = Some (MemoryManager_instance total free) ->
  amount <= free ->
  (granted <- MemoryManager.allocate_memory [VRef m; p; VInt amount] ;;
   release <- getattr (VClass C_MemoryManager) "free_memory" ;;
   call globals (S depth) release [VRef m; p; VInt amount] ;;;
   ret granted) w
  = (Ret (VBool true), w).
Proof.
  intros Hm Hle.
  assert (Hgrant : MemoryManager.allocate_memory [VRef m; p; VInt amount] w
                   = (Ret (VBool true),
                      with_heap w (<[m := MemoryManager_instance total (free - amount)]>
                                     (heap w)))).
  { rewrite (allocate_memory_int _ _ _ _ _ _ Hm).
    now replace (amount <=? free) with true by (symmetry; now apply Z.leb_le). }
  step Hgrant. pure_step.
  change (call globals (S depth) (VFunc def_MemoryManager_free_memory)
            [VRef m; p; VInt amount])
    with (MemoryManager.free_memory [VRef m; p; VInt amount]).
  erewrite bind_ret
    by (apply free_memory_int; cbn [with_heap heap]; apply lookup_insert_eq).
  cbv [ret with_heap heap stdout files dirs paths].
  rewrite insert_insert_eq.
  replace (free - amount + amount) with free by lia.
  f_equal. now apply with_heap_same.
Qed.

Lemma allocate_then_release_restores_witness :
  let w := World {[ 1%positive := MemoryManager_instance 4096 3072 ]} [] ∅ ∅ in
  (granted <- MemoryManager.allocate_memory [VRef 1; VNone; VInt 1024] ;;
   release <- getattr (VClass C_MemoryManager) "free_memory" ;;
   call module_globals 1 release [VRef 1; VNone; VInt 1024] ;;;
   ret granted) w
  = (Ret (VBool true), w).
Proof.
  intros w.
  apply (allocate_then_release_restores module_globals 0 w 1 VNone 4096 3072 1024);
    [reflexivity | lia].
Defined.

Lemma allocate_each_accounts m p total amounts :
  forall w free,
    heap w !! m = Some (MemoryManager_instance total free) ->
    0 <= free ->
    Forall (fun amount => 0 <= amount) amounts ->
    exists results free',
      allocate_each (VRef m) p amounts w
      = (Ret results, with_heap w (<[m := MemoryManager_instance total free']> (heap w))) /\
      length results = length amounts /\
      0 <= free' /\
      free' = free - granted_total results amounts.
Proof.
  induction amounts as [| amount rest IH]; intros w free Hm Hfree Hall.
  - exists [], free. cbn [allocate_each granted_total length].
    unfold ret. rewrite (with_heap_same _ _ _ Hm). repeat split; lia.
  - inversion Hall as [| ? ? Hamount Hrest]; subst.
    cbn [allocate_each].
    pose proof (allocate_memory_int w m p total free amount Hm) as Hrun.
    destruct (amount <=? free) eqn:Hcmp.
    + apply Z.leb_le in Hcmp.
      set (w1 := with_heap w (<[m := MemoryManager_instance total (free - amount)]>
                                (heap w))) in *.
      destruct (IH w1 (free - amount)) as (results & free' & Hrest' & Hlen & Hpos & Hsum);
        [apply lookup_insert_eq | lia | assumption |].
      exists (VBool true :: results), free'.
      step Hrun. step Hrest'.
      cbn [length granted_total truthy]. unfold ret, w1, with_heap.
      cbn [heap stdout files dirs paths]. rewrite insert_insert_eq.
      repeat split; (reflexivity || lia).
    + destruct (IH w free) as (results & free' & Hrest' & Hlen & Hpos & Hsum);
        [assumption | assumption | assumption |].
      exists (VBool false :: results), free'.
      step Hrun. step Hrest'.
      cbn [length granted_total truthy].
      repeat split; (reflexivity || lia).
Qed.

(** X4.  On an allocator with [0 <= free <= total], any sequence of
    [allocate_memory] calls with amounts that are not negative returns, one
    result per call; the amounts granted add up to exactly what free has
    gone down by, which is never more than was free; free stays between 0
    and total; total and every other object are unchanged. *)
Theorem allocate_memory_never_overcommits
    (w : world) (m : loc) (p : value) (total free : Z) (amounts : list Z) :
  heap w !! m = Some (MemoryManager_instance total free) ->
  0 <= free <= total ->
  Forall (fun amount => 0 <= amount) amounts ->
  exists results free' w',
    allocate_each (VRef m) p amounts w = (Ret results, w') /\
    length results = length amounts /\
    heap w' !! m = Some (MemoryManager_instance total free') /\
    (forall l, l <> m -> heap w' !! l = heap w !! l) /\
    granted_total results amounts = free - free' /\
    0 <= free' <= total /\
    granted_total results amounts <= free.
Proof.
  intros Hm [Hfree Htotal] Hall.
  destruct (allocate_each_accounts m p total amounts w free Hm Hfree Hall)
    as (results & free' & Hrun & Hlen & Hpos & Hsum).
  assert (Hnonneg : forall rs, 0 <= granted_total rs amounts).
  { clear - Hall. induction Hall as [| amount rest Hamount _ IH]; intros rs.
    - destruct rs; cbn [granted_total]; lia.
    - destruct rs as [| r rs]; cbn [granted_total]; [lia |].
      specialize (IH rs). destruct (truthy r); lia. }
  specialize (Hnonneg results).
  exists results, free', (with_heap w (<[m := MemoryManager_instance total free']> (heap w))).
  split; [exact Hrun |]. split; [exact Hlen |]. cbn [with_heap heap].
  split; [apply lookup_insert_eq |].
  split; [intros l Hl; now apply lookup_insert_ne |].
  repeat split; lia.
Qed.

Lemma allocate_memory_never_overcommits_witness :
  let w := World {[ 1%positive := MemoryManager_instance 4096 4096 ]} [] ∅ ∅ in
  exists results free' w',
    allocate_each (VRef 1) VNone [3000; 2000; 1000; 500] w = (Ret results, w') /\
    length results = length [3000; 2000; 1000; 500] /\
    heap w' !! 1%positive = Some (MemoryManager_instance 4096 free') /\
    (forall l, l <> 1%positive -> heap w' !! l = heap w !! l) /\
    granted_total results [3000; 2000; 1000; 500] = 4096 - free' /\
    0 <= free' <= 4096 /\
    granted_total results [3000; 2000; 1000; 500] <= 4096.
Proof.
  intros w.
  apply (allocate_memory_never_overcommits w 1 VNone 4096 4096 [3000; 2000; 1000; 500]);
    [reflexivity | lia | repeat constructor; lia].
Defined.

(** X5.  [allocate_memory] does not look at the sign of the amount.  On an
    allocator with [0 <= free], a negative amount is always granted and free
    goes up by its size; from a full allocator ([free = total]) free ends
    above total. *)
Theorem allocate_memory_grants_negative_amounts
    (w : world) (m : loc) (p : value) (total free amount : Z) :
  heap w !! m = Some (MemoryManager_instance total free) ->
  0 <= free -> amount < 0 ->
  MemoryManager.allocate_memory [VRef m; p; VInt amount] w
  = (Ret (VBool true),
     with_heap w (<[m := MemoryManager_instance total (free - amount)]> (heap w)))
  /\ free < free - amount
  /\ (free = total -> total < free - amount).
Proof.
  intros Hm Hfree Hneg.
  rewrite (allocate_memory_int _ _ _ _ _ _ Hm).
  replace (amount <=? free) with true by (symmetry; apply Z.leb_le; lia).
  repeat split; lia.
Qed.

Lemma allocate_memory_grants_negative_amounts_witness :
  let w := World {[ 1%positive := MemoryManager_instance 4096 4096 ]} [] ∅ ∅ in
  MemoryManager.allocate_memory [VRef 1; VNone; VInt (-1024)] w
  = (Ret (VBool true),
     with_heap w (<[1%positive := MemoryManager_instance 4096 (4096 - -1024)]> (heap w)))
  /\ 4096 < 4096 - -1024
  /\ (4096 = 4096 -> 4096 < 4096 - -1024).
Proof.
  intros w.
  apply (allocate_memory_grants_negative_amounts w 1 VNone 4096 4096 (-1024));
    [reflexivity | lia | lia].
Defined.

(** X6.  On every allocator, [allocate_memory] with a str for an amount
    raises TypeError at the comparison and leaves the world as it was. *)
Theorem allocate_memory_rejects_a_str_amount
    (w : world) (m : loc) (p : value) (total free : Z) (amount : string) :
  heap w !! m = Some (MemoryManager_instance total free) ->
  MemoryManager.allocate_memory [VRef m; p; VStr amount] w
  = (Raise (TypeError "'<=' not supported between instances of 'str' and 'int'"), w).
Proof.
  intros Hm. unfold MemoryManager.allocate_memory.
  step (free_memory_attribute _ _ _ _ Hm). reflexivity.
Qed.

Lemma allocate_memory_rejects_a_str_amount_witness :
  let w := World {[ 1%positive := MemoryManager_instance 4096 4096 ]} [] ∅ ∅ in
  MemoryManager.allocate_memory [VRef 1; VNone; VStr "1024"] w
  = (Raise (TypeError "'<=' not supported between instances of 'str' and 'int'"), w).
Proof.
  intros w.
  apply (allocate_memory_rejects_a_str_amount w 1 VNone 4096 4096 "1024").
  reflexivity.
Defined.

(** ** Admission when the quota fits *)

Lemma run_process_granted globals depth w self pm mm fs total free p :
  heap w !! self = Some (DevOS_instance pm mm fs) ->
  heap w !! mm = Some (MemoryManager_instance total free) ->
  1024 <= free ->
  DevOS.run_process (call globals (S depth)) [VRef self; p] w
  = (add <- getattr (VRef pm) "add_process" ;;
     call globals (S depth) add [p] ;;;
     name <- getattr p "name" ;;
     print [Lit "Running process: "; field name] ;;;
     ret VNone)
      (with_heap w (<[mm := MemoryManager_instance total (free - 1024)]> (heap w))).
Proof.
  intros Hself Hm Hfree.
  assert (Hne : mm <> self).
  { intros ->. rewrite Hself in Hm. discriminate. }
  unfold DevOS.run_process.
  erewrite bind_ret by (eapply getattr_dict; [exact Hself | reflexivity]).
  erewrite bind_ret
    by (eapply getattr_class; [exact Hm | reflexivity | reflexivity]).
  change (call globals (S depth) (VMethod def_MemoryManager_allocate_memory mm)
            [p; VInt 1024])
    with (MemoryManager.allocate_memory [VRef mm; p; VInt 1024]).
  assert (Hgrant : MemoryManager.allocate_memory [VRef mm; p; VInt 1024] w
                   = (Ret (VBool true),
                      with_heap w (<[mm := MemoryManager_instance total (free - 1024)]>
                                     (heap w)))).
  { rewrite (allocate_memory_int _ _ _ _ _ _ Hm).
    now replace (1024 <=? free) with true by (symmetry; now apply Z.leb_le). }
  step Hgrant. cbn [truthy].
  erewrite bind_ret; [reflexivity |].
  eapply getattr_dict.
  - cbn [with_heap heap]. rewrite lookup_insert_ne by exact Hne. exact Hself.
  - reflexivity.
Qed.

Lemma run_process_after_the_grant
    (globals : gmap string value) (depth : nat) (w w' : world)
    (self pm mm fs : loc) (total free : Z) (p r name : value) :
  heap w !! self = Some (DevOS_instance pm mm fs) ->
  heap w !! mm = Some (MemoryManager_instance total free) ->
  1024 <= free ->
  (add <- getattr (VRef pm) "add_process" ;; call globals (S depth) add [p])
    (with_heap w (<[mm := MemoryManager_instance total (free - 1024)]> (heap w)))
  = (Ret r, w') ->
  getattr p "name" w' = (Ret name, w') ->
  DevOS.run_process (call globals (S depth)) [VRef self; p] w
  = (Ret VNone, with_line w' [Lit "Running process: "; field name]).
Proof.
  intros Hself Hm Hfree Hadd Hname.
  rewrite (run_process_granted _ _ _ _ _ _ _ _ _ _ Hself Hm Hfree).
  unfold bind in Hadd |- *.
  destruct (getattr (VRef pm) "add_process" _) as [[add | e] w1]; [| discriminate].
  rewrite Hadd, Hname. reflexivity.
Qed.

(** X7.  [run_process] takes the quota first and registers second.  On a
    supervisor whose allocator has at least 1024 free: if the call
    [self.process_manager.add_process(process)], made in the world where
    free is already 1024 lower, returns normally, then [run_process] returns
    None in the world that call left, with the one line "Running process:
    <name>" added to the output. *)
Theorem run_process_allocates_then_registers
    (globals : gmap string value) (depth : nat) (w w' : world)
    (self pm mm fs : loc) (total free : Z) (p r name : value) :
  heap w !! self = Some (DevOS_instance pm mm fs) ->
  heap w !! mm = Some (MemoryManager_instance total free) ->
  1024 <= free ->
  (add <- getattr (VRef pm) "add_process" ;; call globals (S depth) add [p])
    (with_heap w (<[mm := MemoryManager_instance total (free - 1024)]> (heap w)))
  = (Ret r, w') ->
  getattr p "name" w' = (Ret name, w') ->
  DevOS.run_process (call globals (S depth)) [VRef self; p] w
  = (Ret VNone, with_line w' [Lit "Running process: "; field name]).
Proof. apply run_process_after_the_grant. Qed.

Lemma run_process_allocates_then_registers_witness :
  let w := snd (scenario_A empty_world) in
  exists w',
    DevOS.run_process (call globals_with_registry 1) [VRef 1; VRef 5] w
    = (Ret VNone, with_line w' [Lit "Running process: "; field (VStr "Process 1")]) /\
    attribute w' 3 "free_memory" = Some (VInt 3072) /\
    attribute w' 2 "processes" = Some (VDict {[ 1 := 5%positive ]}).
Proof.
  intros w.
  eexists. split.
  - apply (run_process_allocates_then_registers
             globals_with_registry 0 w _ 1 2 3 4 4096 4096 (VRef 5) VNone
             (VStr "Process 1"));
      [reflexivity | reflexivity | lia | reflexivity | reflexivity].
  - split; reflexivity.
Defined.

(** X8.  [run_process] does not give the quota back.  On a supervisor whose
    allocator has at least 1024 free: if the call to [add_process], made
    after the allocation, raises, then [run_process] raises the same
    exception in the world that call left; nothing is printed, and unless
    that call changed the allocator itself, free stays 1024 lower. *)
Theorem run_process_keeps_the_quota_when_registration_fails
    (globals : gmap string value) (depth : nat) (w w' : world)
    (self pm mm fs : loc) (total free : Z) (p : value) (e : exn) :
  heap w !! self = Some (DevOS_instance pm mm fs) ->
  heap w !! mm = Some (MemoryManager_instance total free) ->
  1024 <= free ->
  (add <- getattr (VRef pm) "add_process" ;; call globals (S depth) add [p])
    (with_heap w (<[mm := MemoryManager_instance total (free - 1024)]> (heap w)))
  = (Raise e, w') ->
  DevOS.run_process (call globals (S depth)) [VRef self; p] w = (Raise e, w') /\
  (heap w' !! mm
   = heap (with_heap w (<[mm := MemoryManager_instance total (free - 1024)]> (heap w))) !! mm ->
   attribute w' mm "free_memory" = Some (VInt (free - 1024))).
Proof.
  intros Hself Hm Hfree Hadd. split.
  - rewrite (run_process_granted _ _ _ _ _ _ _ _ _ _ Hself Hm Hfree).
    unfold bind in Hadd |- *.
    destruct (getattr (VRef pm) "add_process" _) as [[add | e'] w1].
    + now rewrite Hadd.
    + exact Hadd.
  - intros Hkept. unfold attribute. rewrite Hkept. cbn [with_heap heap].
    now rewrite lookup_insert_eq.
Qed.

Lemma run_process_keeps_the_quota_when_registration_fails_witness :
  let w := snd ((cast <- scenario_A ;;
                 let '(d, p1, _, _) := cast in
                 devos_run_process globals_with_registry d p1) empty_world) in
  let w' := with_heap w (<[3%positive := MemoryManager_instance 4096 (3072 - 1024)]> (heap w)) in
  DevOS.run_process (call globals_with_registry 1) [VRef 1; VRef 5] w
  = (Raise (DuplicateProcess 1), w') /\
  (heap w' !! 3%positive = heap w' !! 3%positive ->
   attribute w' 3 "free_memory" = Some (VInt (3072 - 1024))).
Proof.
  intros w w'.
  apply (run_process_keeps_the_quota_when_registration_fails
           globals_with_registry 0 w w' 1 2 3 4 4096 3072 (VRef 5) (DuplicateProcess 1));
    [reflexivity | reflexivity | lia | reflexivity].
Defined.

Lemma add_process_method globals depth w pm registry p pid name status :
  heap w !! pm = Some (ProcessManager_instance registry) ->
  heap w !! p = Some (Process_instance (VInt pid) name status) ->
  registry !! pid = None ->
  (add <- getattr (VRef pm) "add_process" ;; call globals (S depth) add [VRef p]) w
  = (Ret VNone,
     with_heap w (<[pm := ProcessManager_instance (<[pid := p]> registry)]> (heap w))).
Proof.
  intros Hpm Hp Hnew.
  erewrite bind_ret
    by (eapply getattr_class; [exact Hpm | reflexivity | reflexivity]).
  change (call globals (S depth) (VMethod def_ProcessManager_add_process pm) [VRef p])
    with (ProcessManager.add_process [VRef pm; VRef p]).
  unfold ProcessManager.add_process.
  erewrite bind_ret by (eapply getattr_dict; [exact Hp | reflexivity]).
  erewrite bind_ret by (eapply getattr_dict; [exact Hpm | reflexivity]).
  cbv beta iota. rewrite Hnew.
  now rewrite (bind_ret _ _ _ _ _ (setattr_ref _ _ _ "processes" _ Hpm)).
Qed.

Lemma run_process_registers globals depth w self pm mm fs total free registry
    p pid name status :
  heap w !! self = Some (DevOS_instance pm mm fs) ->
  heap w !! mm = Some (MemoryManager_instance total free) ->
  heap w !! pm = Some (ProcessManager_instance registry) ->
  heap w !! p = Some (Process_instance (VInt pid) name status) ->
  1024 <= free ->
  registry !! pid = None ->
  DevOS.run_process (call globals (S depth)) [VRef self; VRef p] w
  = (Ret VNone,
     with_line
       (with_heap w
          (<[pm := ProcessManager_instance (<[pid := p]> registry)]>
             (<[mm := MemoryManager_instance total (free - 1024)]> (heap w))))
       [Lit "Running process: "; field name]).
Proof.
  intros Hself Hm Hpm Hp Hfree Hnew.
  assert (Hpm_mm : mm <> pm) by (intros ->; rewrite Hpm in Hm; discriminate).
  assert (Hp_mm : mm <> p) by (intros ->; rewrite Hp in Hm; discriminate).
  assert (Hp_pm : pm <> p) by (intros ->; rewrite Hp in Hpm; discriminate).
  set (w1 := with_heap w (<[mm := MemoryManager_instance total (free - 1024)]> (heap w))).
  assert (Hadd : (add <- getattr (VRef pm) "add_process" ;;
                  call globals (S depth) add [VRef p]) w1
                 = (Ret VNone,
                    with_heap w1 (<[pm := ProcessManager_instance (<[pid := p]> registry)]>
                                    (heap w1)))).
  { apply add_process_method with name status; [| | exact Hnew];
      unfold w1; cbn [with_heap heap]; now rewrite lookup_insert_ne. }
  rewrite (run_process_after_the_grant globals depth w _ self pm mm fs
             total free (VRef p) VNone name Hself Hm Hfree Hadd); [reflexivity |].
  eapply getattr_dict.
  - unfold w1. cbn [with_heap heap]. rewrite !lookup_insert_ne by congruence. exact Hp.
  - reflexivity.
Qed.

(** X9.  With the registry supplied: on a supervisor with at least 1024
    free and a process whose identifier is not registered, [run_process]
    returns None, takes 1024 from free, enters the process in the registry
    under its identifier and prints its line; the process itself, its
    status included and whatever that status is, and every object other
    than the allocator and the registry are unchanged. *)
Theorem run_process_leaves_the_process_as_it_is
    (globals : gmap string value) (depth : nat) (w : world)
    (self pm mm fs : loc) (total free : Z) (registry : gmap Z loc)
    (p : loc) (pid : Z) (name status : value) :
  heap w !! self = Some (DevOS_instance pm mm fs) ->
  heap w !! mm = Some (MemoryManager_instance total free) ->
  heap w !! pm = Some (ProcessManager_instance registry) ->
  heap w !! p = Some (Process_instance (VInt pid) name status) ->
  1024 <= free ->
  registry !! pid = None ->
  exists w',
    DevOS.run_process (call globals (S depth)) [VRef self; VRef p] w = (Ret VNone, w') /\
    heap w' !! p = Some (Process_instance (VInt pid) name status) /\
    heap w' !! mm = Some (MemoryManager_instance total (free - 1024)) /\
    heap w' !! pm = Some (ProcessManager_instance (<[pid := p]> registry)) /\
    (forall l, l <> mm -> l <> pm -> heap w' !! l = heap w !! l) /\
    stdout w' = (stdout w ++ [[Lit "Running process: "; field name]])%list.
Proof.
  intros Hself Hm Hpm Hp Hfree Hnew.
  assert (Hpm_mm : mm <> pm) by (intros ->; rewrite Hpm in Hm; discriminate).
  assert (Hp_mm : mm <> p) by (intros ->; rewrite Hp in Hm; discriminate).
  assert (Hp_pm : pm <> p) by (intros ->; rewrite Hp in Hpm; discriminate).
  eexists. split.
  { exact (run_process_registers globals depth w self pm mm fs total free registry
             p pid name status Hself Hm Hpm Hp Hfree Hnew). }
  cbn [with_line with_heap heap stdout].
  split; [now rewrite !lookup_insert_ne by congruence |].
  split; [rewrite lookup_insert_ne by congruence; apply lookup_insert_eq |].
  split; [apply lookup_insert_eq |].
  split; [| reflexivity].
  intros l Hl_mm Hl_pm. now rewrite !lookup_insert_ne by congruence.
Qed.

Lemma run_process_leaves_the_process_as_it_is_witness :
  let w := with_heap (snd (scenario_A empty_world))
             (<[5%positive := Process_instance (VInt 1) (VStr "Process 1")
                                (VStr "terminated")]>
                (heap (snd (scenario_A empty_world)))) in
  exists w',
    DevOS.run_process (call globals_with_registry 1) [VRef 1; VRef 5] w = (Ret VNone, w') /\
    heap w' !! 5%positive
    = Some (Process_instance (VInt 1) (VStr "Process 1") (VStr "terminated")) /\
    heap w' !! 3%positive = Some (MemoryManager_instance 4096 (4096 - 1024)) /\
    heap w' !! 2%positive = Some (ProcessManager_instance (<[1 := 5%positive]> ∅)) /\
    (forall l, l <> 3%positive -> l <> 2%positive -> heap w' !! l = heap w !! l) /\
    stdout w' = (stdout w ++ [[Lit "Running process: "; field (VStr "Process 1")]])%list.
Proof.
  intros w.
  apply (run_process_leaves_the_process_as_it_is
           globals_with_registry 0 w 1 2 3 4 4096 4096 ∅ 5 1
           (VStr "Process 1") (VStr "terminated"));
    [reflexivity | reflexivity | reflexivity | reflexivity | lia | reflexivity].
Defined.

Lemma run_each_rejects_below_quota globals depth self pm mm fs total free processes :
  forall w,
    heap w !! self = Some (DevOS_instance pm mm fs) ->
    heap w !! mm = Some (MemoryManager_instance total free) ->
    free < 1024 ->
    Forall (fun p => exists pid name status,
                heap w !! p = Some (Process_instance pid name status)) processes ->
    exists w',
      run_each (call globals (S depth)) (VRef self) processes w = (Ret tt, w') /\
      heap w' = heap w.
Proof.
  induction processes as [| p rest IH]; intros w Hself Hm Hfree Hall.
  - now exists w.
  - inversion Hall as [| ? ? (pid & name & status & Hp) Hrest]; subst.
    destruct (IH (with_line w (rejection name))) as (w' & Hrun & Hheap);
      try assumption.
    exists w'. cbn [run_each].
    erewrite bind_ret
      by (apply run_process_rejects with pm mm fs total free pid status; eassumption).
    now split.
Qed.

(** X10.  With the registry supplied: on a supervisor with [0 <= free],
    running [run_process] on a list of processes with distinct identifiers,
    none of them registered, never raises.  It admits a number [k] of them,
    the first [k] of the list: free goes down by [1024 * k] and is not
    negative, the registry gains exactly those [k] entries, and if any
    process was turned away then less than 1024 is left. *)
Theorem run_each_admits_while_the_quota_fits
    (globals : gmap string value) (depth : nat) (processes : list (loc * Z)) :
  forall (w : world) (self pm mm fs : loc) (total free : Z) (registry : gmap Z loc),
    heap w !! self = Some (DevOS_instance pm mm fs) ->
    heap w !! mm = Some (MemoryManager_instance total free) ->
    heap w !! pm = Some (ProcessManager_instance registry) ->
    0 <= free ->
    Forall (fun p => exists name status,
                heap w !! p.1 = Some (Process_instance (VInt p.2) name status))
           processes ->
    NoDup (processes.*2) ->
    (forall p, p ∈ processes -> registry !! p.2 = None) ->
    exists (k : nat) (w' : world),
      run_each (call globals (S depth)) (VRef self) (processes.*1) w = (Ret tt, w') /\
      (k <= length processes)%nat /\
      heap w' !! mm = Some (MemoryManager_instance total (free - 1024 * Z.of_nat k)) /\
      heap w' !! pm
      = Some (ProcessManager_instance (register_all registry (take k processes))) /\
      0 <= free - 1024 * Z.of_nat k /\
      ((k < length processes)%nat -> free - 1024 * Z.of_nat k < 1024).
Proof.
  induction processes as [| [p pid] rest IH];
    intros w self pm mm fs total free registry Hself Hm Hpm Hfree Hall Hdup Hnew.
  - exists 0%nat, w. cbn [fmap list_fmap run_each length take register_all foldl].
    replace (free - 1024 * Z.of_nat 0) with free by lia.
    repeat split; (assumption || lia || reflexivity).
  - inversion Hall as [| ? ? (name & status & Hp) Hrest]; subst. cbn [fst snd] in Hp.
    destruct (Z_lt_le_dec free 1024) as [Hsmall | Hfits].
    + destruct (run_each_rejects_below_quota globals depth self pm mm fs total free
                  (((p, pid) :: rest).*1) w Hself Hm Hsmall) as (w' & Hrun & Hheap).
      { apply Forall_fmap. eapply Forall_impl; [exact Hall |].
        intros [l i] (n & s & Hl). now exists (VInt i), n, s. }
      exists 0%nat, w'. rewrite Hheap.
      replace (free - 1024 * Z.of_nat 0) with free by lia.
      cbn [length take register_all foldl].
      repeat split; (assumption || lia).
    + assert (Hpm_mm : mm <> pm) by (intros ->; rewrite Hpm in Hm; discriminate).
      assert (Hself_mm : mm <> self) by (intros ->; rewrite Hself in Hm; discriminate).
      assert (Hself_pm : pm <> self) by (intros ->; rewrite Hself in Hpm; discriminate).
      assert (Hfresh : registry !! pid = None).
      { apply (Hnew (p, pid)). apply list_elem_of_here. }
      pose proof (run_process_registers globals depth w self pm mm fs total free registry
                    p pid name status Hself Hm Hpm Hp Hfits Hfresh) as Hstep.
      set (w1 := with_line _ _) in Hstep.
      apply NoDup_cons in Hdup as [Hnotin Hdup].
      destruct (IH w1 self pm mm fs total (free - 1024) (<[pid := p]> registry))
        as (k & w' & Hrun & Hk & Hm' & Hpm' & Hpos & Hstop).
      * unfold w1. cbn [with_line with_heap heap].
        now rewrite !lookup_insert_ne by congruence.
      * unfold w1. cbn [with_line with_heap heap].
        rewrite lookup_insert_ne by congruence. apply lookup_insert_eq.
      * unfold w1. cbn [with_line with_heap heap]. apply lookup_insert_eq.
      * lia.
      * eapply Forall_impl; [exact Hrest |].
        intros [l i] (n & s & Hl). cbn [fst snd] in *. exists n, s.
        unfold w1. cbn [with_line with_heap heap].
        rewrite !lookup_insert_ne; [exact Hl | |];
          intros <-; rewrite Hl in *; discriminate.
      * exact Hdup.
      * intros [l i] Hin. cbn [snd].
        rewrite lookup_insert_ne.
        -- apply (Hnew (l, i)). now apply list_elem_of_further.
        -- intros ->. apply Hnotin. apply list_elem_of_fmap. now exists (l, i).
      * exists (S k), w'. cbn [fmap list_fmap run_each fst]. 
        change (list_fmap _ _ fst rest) with (rest.*1).
        step Hstep.
        split; [exact Hrun |].
        replace (free - 1024 * Z.of_nat (S k)) with (free - 1024 - 1024 * Z.of_nat k) by lia.
        cbn [length take register_all foldl fst snd].
        repeat split; (assumption || lia).
Qed.

Lemma run_each_admits_while_the_quota_fits_witness :
  let w := snd ((boot globals_with_registry 2048 ;;;
                 spawn globals_with_registry 1 "Process 1" ;;;
                 spawn globals_with_registry 2 "Process 2" ;;;
                 spawn globals_with_registry 3 "Process 3") empty_world) in
  let processes := [(5%positive, 1); (6%positive, 2); (7%positive, 3)] in
  exists (k : nat) (w' : world),
    run_each (call globals_with_registry 1) (VRef 1) (processes.*1) w = (Ret tt, w') /\
    (k <= length processes)%nat /\
    heap w' !! 3%positive = Some (MemoryManager_instance 2048 (2048 - 1024 * Z.of_nat k)) /\
    heap w' !! 2%positive
    = Some (ProcessManager_instance (register_all ∅ (take k processes))) /\
    0 <= 2048 - 1024 * Z.of_nat k /\
    ((k < length processes)%nat -> 2048 - 1024 * Z.of_nat k < 1024).
Proof.
  intros w processes.
  apply (run_each_admits_while_the_quota_fits globals_with_registry 0 processes
           w 1 2 3 4 2048 2048 ∅).
  - reflexivity.
  - reflexivity.
  - reflexivity.
  - lia.
  - repeat constructor; cbn [fst snd].
    + exists (VStr "Process 1"), (VStr "running"). reflexivity.
    + exists (VStr "Process 2"), (VStr "running"). reflexivity.
    + exists (VStr "Process 3"), (VStr "running"). reflexivity.
  - apply (bool_decide_unpack _). vm_compute. exact I.
  - intros p _. apply lookup_empty.
Defined.

(** ** Construction of the supervisor when the registry class is bound *)

Lemma construct_ProcessManager globals depth w :
  call globals (S depth) (VClass C_ProcessManager) [] w
  = (Ret (VRef (fresh (dom (heap w)))),
     with_heap w (<[fresh (dom (heap w)) := ProcessManager_instance ∅]> (heap w))).
Proof.
  set (l := fresh (dom (heap w))).
  unfold call, call_with.
  assert (Hnew : new_object C_ProcessManager w
                 = (Ret l, with_heap w (<[l := Object C_ProcessManager ∅]> (heap w))))
    by reflexivity.
  step Hnew.
  change (class_dict C_ProcessManager "__init__") with (Some def_ProcessManager_init).
  cbv iota.
  change (invoke globals (S depth) def_ProcessManager_init) with ProcessManager.__init__.
  unfold ProcessManager.__init__.
  erewrite bind_ret; cycle 1.
  { erewrite bind_ret; cycle 1.
    { apply setattr_ref. cbn [heap with_heap]. apply lookup_insert_eq. }
    reflexivity. }
  cbv [ret with_heap heap stdout files dirs paths obj_class obj_dict].
  rewrite !insert_insert_eq. reflexivity.
Qed.

Lemma construct_FileSystem globals depth root w :
  call globals (S depth) (VClass C_FileSystem) [VStr root] w
  = (Ret (VRef (fresh (dom (heap w)))),
     with_heap w (<[fresh (dom (heap w)) := FileSystem_instance root]> (heap w))).
Proof.
  set (l := fresh (dom (heap w))).
  unfold call, call_with.
  assert (Hnew : new_object C_FileSystem w
                 = (Ret l, with_heap w (<[l := Object C_FileSystem ∅]> (heap w))))
    by reflexivity.
  step Hnew.
  change (class_dict C_FileSystem "__init__") with (Some def_FileSystem_init).
  cbv iota.
  change (invoke globals (S depth) def_FileSystem_init) with FileSystem.__init__.
  unfold FileSystem.__init__.
  erewrite bind_ret; cycle 1.
  { erewrite bind_ret; cycle 1.
    { apply setattr_ref. cbn [heap with_heap]. apply lookup_insert_eq. }
    reflexivity. }
  cbv [ret with_heap heap stdout files dirs paths obj_class obj_dict].
  rewrite !insert_insert_eq. reflexivity.
Qed.

(** Storing a component just built in an attribute of the instance [d]
    under construction. *)
Lemma store_component (w : world) (d x : loc) (dict : gmap string value)
    (o : object) (attr : string) :
  heap w !! d = Some (Object C_DevOS dict) ->
  x = fresh (dom (heap w)) ->
  setattr (VRef d) attr (VRef x) (with_heap w (<[x := o]> (heap w)))
  = (Ret tt,
     with_heap w (<[d := Object C_DevOS (<[attr := VRef x]> dict)]>
                    (<[x := o]> (heap w)))) /\
  x <> d /\ heap w !! x = None.
Proof.
  intros Hd ->.
  assert (Hnone : heap w !! fresh (dom (heap w)) = None) by apply fresh_unused.
  assert (Hne : fresh (dom (heap w)) <> d) by (intros Heq; rewrite Heq, Hd in Hnone; discriminate).
  split; [| now split].
  erewrite setattr_ref
    by (cbn [with_heap heap]; rewrite lookup_insert_ne by exact Hne; exact Hd).
  reflexivity.
Qed.

(** X11.  In any namespace that binds [ProcessManager], [MemoryManager] and
    [FileSystem] to their classes, [DevOS(total, root)] returns a new
    supervisor holding an empty registry, an allocator with free = total =
    [total], and a file system rooted at [root].  The four instances sit at
    four locations that held nothing; every other object, the output and the
    file store are unchanged. *)
Theorem DevOS_constructor_builds_its_components
    (globals : gmap string value) (depth : nat) (total : Z) (root : string) (w : world) :
  globals !! "ProcessManager" = Some (VClass C_ProcessManager) ->
  globals !! "MemoryManager" = Some (VClass C_MemoryManager) ->
  globals !! "FileSystem" = Some (VClass C_FileSystem) ->
  exists (d pm mm fs : loc) (w' : world),
    call globals (S (S depth)) (VClass C_DevOS) [VInt total; VStr root] w
    = (Ret (VRef d), w') /\
    heap w' !! d = Some (DevOS_instance pm mm fs) /\
    heap w' !! pm = Some (ProcessManager_instance ∅) /\
    heap w' !! mm = Some (MemoryManager_instance total total) /\
    heap w' !! fs = Some (FileSystem_instance root) /\
    (heap w !! d = None /\ heap w !! pm = None /\
     heap w !! mm = None /\ heap w !! fs = None) /\
    (forall l, l <> d -> l <> pm -> l <> mm -> l <> fs -> heap w' !! l = heap w !! l) /\
    stdout w' = stdout w /\ files w' = files w /\ dirs w' = dirs w.
Proof.
  intros Gpm Gmm Gfs.
  set (d := fresh (dom (heap w))).
  set (wa := with_heap w (<[d := Object C_DevOS ∅]> (heap w))).
  assert (Hd0 : heap w !! d = None) by apply fresh_unused.
  assert (Hda : heap wa !! d = Some (Object C_DevOS ∅)) by apply lookup_insert_eq.
  (* the registry *)
  set (pm := fresh (dom (heap wa))).
  destruct (store_component wa d pm ∅ (ProcessManager_instance ∅) "process_manager"
              Hda eq_refl) as (Hset1 & Hpm_d & Hpm_a).
  set (wb := with_heap wa (<[d := Object C_DevOS (<["process_manager" := VRef pm]> ∅)]>
                             (<[pm := ProcessManager_instance ∅]> (heap wa)))) in *.
  assert (Hdb : heap wb !! d
                = Some (Object C_DevOS (<["process_manager" := VRef pm]> ∅)))
    by apply lookup_insert_eq.
  (* the allocator *)
  set (mm := fresh (dom (heap wb))).
  destruct (store_component wb d mm _ (MemoryManager_instance total total) "memory_manager"
              Hdb eq_refl) as (Hset2 & Hmm_d & Hmm_b).
  set (wc := with_heap wb
               (<[d := Object C_DevOS (<["memory_manager" := VRef mm]>
                                         (<["process_manager" := VRef pm]> ∅))]>
                  (<[mm := MemoryManager_instance total total]> (heap wb)))) in *.
  assert (Hdc : heap wc !! d
                = Some (Object C_DevOS (<["memory_manager" := VRef mm]>
                                          (<["process_manager" := VRef pm]> ∅))))
    by apply lookup_insert_eq.
  (* the file system *)
  set (fs := fresh (dom (heap wc))).
  destruct (store_component wc d fs _ (FileSystem_instance root) "file_system"
              Hdc eq_refl) as (Hset3 & Hfs_d & Hfs_c).
  set (wd := with_heap wc
               (<[d := Object C_DevOS
                         (<["file_system" := VRef fs]>
                            (<["memory_manager" := VRef mm]>
                               (<["process_manager" := VRef pm]> ∅)))]>
                  (<[fs := FileSystem_instance root]> (heap wc)))) in *.
  exists d, pm, mm, fs, wd.
  assert (Hrun : call globals (S (S depth)) (VClass C_DevOS) [VInt total; VStr root] w
                 = (Ret (VRef d), wd)).
  { unfold call, call_with.
    assert (Hnew : new_object C_DevOS w = (Ret d, wa)) by reflexivity.
    step Hnew.
    change (class_dict C_DevOS "__init__") with (Some def_DevOS_init). cbv iota.
    change (invoke globals (S (S depth)) def_DevOS_init)
      with (DevOS.__init__ globals (call globals (S depth))).
    erewrite bind_ret; [reflexivity |].
    unfold DevOS.__init__, load_global. rewrite Gpm, Gmm, Gfs.
    pure_step. step (construct_ProcessManager globals depth wa). step Hset1.
    pure_step. step (construct_MemoryManager globals depth (VInt total) wb). step Hset2.
    pure_step. step (construct_FileSystem globals depth root wc). step Hset3.
    reflexivity. }
  split; [exact Hrun |].
  (* the locations are new and distinct *)
  unfold wb in Hmm_b. cbn [with_heap heap] in Hmm_b.
  apply lookup_insert_None in Hmm_b as [Hmm_b _].
  apply lookup_insert_None in Hmm_b as [Hmm_a Hpm_mm].
  unfold wc in Hfs_c. cbn [with_heap heap] in Hfs_c.
  apply lookup_insert_None in Hfs_c as [Hfs_c _].
  apply lookup_insert_None in Hfs_c as [Hfs_b Hmm_fs].
  unfold wb in Hfs_b. cbn [with_heap heap] in Hfs_b.
  apply lookup_insert_None in Hfs_b as [Hfs_b _].
  apply lookup_insert_None in Hfs_b as [Hfs_a Hpm_fs].
  unfold wa in Hpm_a, Hmm_a, Hfs_a. cbn [with_heap heap] in Hpm_a, Hmm_a, Hfs_a.
  apply lookup_insert_None in Hpm_a as [Hpm_0 _].
  apply lookup_insert_None in Hmm_a as [Hmm_0 _].
  apply lookup_insert_None in Hfs_a as [Hfs_0 _].
  unfold wd, wc, wb, wa. cbn [with_heap heap stdout files dirs paths].
  split; [rewrite lookup_insert_eq; reflexivity |].
  split.
  { rewrite !lookup_insert_ne by congruence. apply lookup_insert_eq. }
  split.
  { rewrite !lookup_insert_ne by congruence. apply lookup_insert_eq. }
  split.
  { rewrite !lookup_insert_ne by congruence. apply lookup_insert_eq. }
  split; [now repeat split |].
  split; [| now repeat split].
  intros l Hl_d Hl_pm Hl_mm Hl_fs.
  now rewrite !lookup_insert_ne by congruence.
Qed.

Lemma DevOS_constructor_builds_its_components_witness :
  exists (d pm mm fs : loc) (w' : world),
    call globals_with_registry 2 (VClass C_DevOS) [VInt 4096; VStr "/"] empty_world
    = (Ret (VRef d), w') /\
    heap w' !! d = Some (DevOS_instance pm mm fs) /\
    heap w' !! pm = Some (ProcessManager_instance ∅) /\
    heap w' !! mm = Some (MemoryManager_instance 4096 4096) /\
    heap w' !! fs = Some (FileSystem_instance "/") /\
    (heap empty_world !! d = None /\ heap empty_world !! pm = None /\
     heap empty_world !! mm = None /\ heap empty_world !! fs = None) /\
    (forall l, l <> d -> l <> pm -> l <> mm -> l <> fs ->
               heap w' !! l = heap empty_world !! l) /\
    stdout w' = stdout empty_world /\ files w' = files empty_world /\
    dirs w' = dirs empty_world.
Proof.
  apply (DevOS_constructor_builds_its_components globals_with_registry 0 4096 "/"
           empty_world); reflexivity.
Defined.

(** ** The example script *)

Lemma boot_fails_unbound total w :
  boot module_globals total w
  = (Raise (NameError "ProcessManager"),
     with_heap w (<[fresh (dom (heap w)) := Object C_DevOS ∅]> (heap w))).
Proof.
  unfold boot. erewrite bind_ret by reflexivity.
  unfold call, call_with.
  assert (Hnew : new_object C_DevOS w
                 = (Ret (fresh (dom (heap w))),
                    with_heap w (<[fresh (dom (heap w)) := Object C_DevOS ∅]> (heap w))))
    by reflexivity.
  step Hnew.
  change (class_dict C_DevOS "__init__") with (Some def_DevOS_init). cbv iota.
  apply bind_raise.
  change (invoke module_globals recursion_limit def_DevOS_init)
    with (DevOS.__init__ module_globals (call module_globals 999)).
  unfold DevOS.__init__. apply bind_raise. reflexivity.
Qed.

(** X12.  The example script, in any world, raises NameError at its first
    statement: it prints nothing, writes no file and changes no object that
    existed.  With the registry supplied and from an empty world it runs as
    far as [terminate_process], which raises TypeError: two lines have been
    printed and the file store is still empty, so the file of the example is
    never created. *)
Theorem main_stops_before_it_prints_or_writes (w : world) :
  (exists w',
     main module_globals w = (Raise (NameError "ProcessManager"), w') /\
     stdout w' = stdout w /\ files w' = files w /\
     forall l o, heap w !! l = Some o -> heap w' !! l = Some o) /\
  (exists w',
     main globals_with_registry empty_world
     = (Raise (TypeError "'int' object is not callable"), w') /\
     stdout w' = [[Lit "Running process: "; Lit "Process 1"];
                  [Lit "Running process: "; Lit "Process 2"]] /\
     files w' = ∅).
Proof.
  split.
  - eexists. split.
    + unfold main. apply bind_raise. apply boot_fails_unbound.
    + cbn [with_heap heap stdout files]. repeat split.
      intros l o Hl. rewrite lookup_insert_ne; [exact Hl |].
      intros <-. now rewrite fresh_unused in Hl.
  - eexists. split; [vm_compute; reflexivity |]. split; reflexivity.
Qed.

(** ** Writing and reading files *)







Lemma posix_join_absolute root path :
  String.prefix (String sep EmptyString) path = true -> posix_join root path = path.
Proof. intros H. unfold posix_join. now rewrite H. Qed.

(** X16.  The root directory does not confine a FileSystem.  A path that
    starts with a slash is joined to itself, whatever the root: through any
    two FileSystem instances, [create_file] with that path and any content
    has the same outcome and leaves the same world, and so has
    [read_file]. *)
Theorem absolute_path_ignores_the_root
    (w : world) (fs1 fs2 : loc) (root1 root2 path : string) (content : value) :
  heap w !! fs1 = Some (FileSystem_instance root1) ->
  heap w !! fs2 = Some (FileSystem_instance root2) ->
  String.prefix (String sep EmptyString) path = true ->
  posix_join root1 path = path /\
  FileSystem.create_file [VRef fs1; VStr path; content] w
  = FileSystem.create_file [VRef fs2; VStr path; content] w /\
  FileSystem.read_file [VRef fs1; VStr path] w
  = FileSystem.read_file [VRef fs2; VStr path] w.
Proof.
  intros Hfs1 Hfs2 Habs.
  split; [now apply posix_join_absolute |].
  rewrite (create_file_runs _ _ _ _ _ Hfs1), (create_file_runs _ _ _ _ _ Hfs2).
  rewrite (read_file_runs _ _ _ _ Hfs1), (read_file_runs _ _ _ _ Hfs2).
  now rewrite !posix_join_absolute by exact Habs.
Qed.

Lemma absolute_path_ignores_the_root_witness :
  let w := World {[ 1%positive := FileSystem_instance "/home";
                    2%positive := FileSystem_instance "/srv" ]}
             [] {[ "/motd" := "hello" ]} {[ "/" ]} in
  posix_join "/home" "/motd" = "/motd" /\
  FileSystem.create_file [VRef 1; VStr "/motd"; VStr "bye"] w
  = FileSystem.create_file [VRef 2; VStr "/motd"; VStr "bye"] w /\
  FileSystem.read_file [VRef 1; VStr "/motd"] w
  = FileSystem.read_file [VRef 2; VStr "/motd"] w.
Proof.
  intros w.
  apply (absolute_path_ignores_the_root w 1 2 "/home" "/srv" "/motd" (VStr "bye"));
    reflexivity.
Defined.


